(** * Hex License Python client: offline cache and validation state machine

    A shallow embedding of [examples/python.py] (class [LicenseClient]):
    the PKCS#7 helpers, the AES-256-CBC wrappers, [save_cache],
    [validate_offline] and [validate], with the properties the
    specification states about them.

    Python values are modelled structurally: [bytes] as [list byte],
    [str] as [string], the values produced by [json.loads] as the
    inductive [json] (a [dict] is a [gmap string json]), exceptions as a
    [result] carrying the exception class, and the mutable client object
    together with the host it runs on as an explicit state that every
    method threads through. Of the console output ([print]) the one line
    whose text comes from outside, the server's error message, is
    modelled, because printing it can fail; the other lines are constants
    and exception texts, which a UTF-8 console always takes, and are left
    out. *)

From Stdlib Require Import ZArith List Bool Strings.Byte Ascii String Lia.
From Stdlib Require Import Floats.SpecFloat.
From stdpp Require Import base option list strings gmap.

Local Open Scope Z_scope.

(** ** Exceptions *)

(** The subclasses of [Exception] that the modelled code can raise. *)
Inductive exn : Type :=
| ValueError
| TypeError
| KeyError
| IndexError
| AttributeError
| OverflowError
| OSError
| URLError
| UnicodeEncodeError
| UnicodeDecodeError
| JSONDecodeError.

Inductive result (A : Type) : Type :=
| Ok (a : A)
| Raise (e : exn).
Arguments Ok {A} a.
Arguments Raise {A} e.

Definition rbind {A B} (r : result A) (k : A → result B) : result B :=
  match r with
  | Ok a => k a
  | Raise e => Raise e
  end.

Definition of_option {A} (e : exn) (o : option A) : result A :=
  match o with
  | Some a => Ok a
  | None => Raise e
  end.

Declare Scope result_scope.
Delimit Scope result_scope with res.
Notation "x <- m ;; k" := (rbind m (fun x => k))
  (at level 100, m at next level, right associativity) : result_scope.

(** ** Byte strings *)

Abbreviation bytes := (list byte).

Definition byte_val (b : byte) : Z := Z.of_N (Byte.to_N b).

Definition byte_of_Z (z : Z) : byte :=
  match Byte.of_N (Z.to_N (z mod 256)) with
  | Some b => b
  | None => x00
  end.

(** [data[:stop]] for a Python sequence: a negative [stop] counts from the
    end, and both ends are clamped to the sequence. *)
Definition py_slice_to {A} (stop : Z) (l : list A) : list A :=
  let n := Z.of_nat (length l) in
  let stop' := if stop <? 0 then Z.max 0 (n + stop) else Z.min stop n in
  take (Z.to_nat stop') l.

(** [data[-1]]: [IndexError] on the empty sequence. *)
Definition py_last {A} (l : list A) : result A :=
  of_option IndexError (last l).

(** ** PKCS#7 helpers *)

Definition block_size : Z := 16.

(** [_pad_data]: [data + bytes([padding_size] * padding_size)]. *)
Definition _pad_data (data : bytes) : bytes :=
  let padding_size := block_size - (Z.of_nat (length data) mod block_size) in
  let padding := replicate (Z.to_nat padding_size) (byte_of_Z padding_size) in
  data ++ padding.

(** [_unpad_data]: [padding_size = data[-1]; return data[:-padding_size]]. *)
Definition _unpad_data (data : bytes) : result bytes :=
  (padding_size <- py_last data ;;
   Ok (py_slice_to (- byte_val padding_size) data))%res.

(** ** Text helpers: [str.split], [bytes.hex], [bytes.fromhex], [in] *)

(** [s.split(sep)] for a one-character separator: every occurrence splits,
    so the result has one more element than [s] has separators. *)
Fixpoint str_split (sep : ascii) (s : string) : list string :=
  match s with
  | EmptyString => [EmptyString]
  | String c rest =>
      if Ascii.eqb c sep then EmptyString :: str_split sep rest
      else match str_split sep rest with
           | h :: t => String c h :: t
           | [] => [String c EmptyString]
           end
  end.

(** [a, b = xs]: exactly two elements, otherwise [ValueError]. *)
Definition unpack2 {A} (xs : list A) : result (A * A) :=
  match xs with
  | [a; b] => Ok (a, b)
  | _ => Raise ValueError
  end.

Definition hex_char (n : Z) : ascii :=
  ascii_of_nat (Z.to_nat (if n <? 10 then 48 + n else 87 + n)).

(** [b.hex()]: two lowercase hexadecimal digits per byte. *)
Fixpoint bytes_hex (b : bytes) : string :=
  match b with
  | [] => EmptyString
  | x :: rest =>
      String (hex_char (byte_val x / 16))
        (String (hex_char (byte_val x mod 16)) (bytes_hex rest))
  end.

Definition hex_digit (c : ascii) : option Z :=
  let n := Z.of_nat (nat_of_ascii c) in
  if (48 <=? n) && (n <=? 57) then Some (n - 48)
  else if (97 <=? n) && (n <=? 102) then Some (n - 87)
  else if (65 <=? n) && (n <=? 70) then Some (n - 55)
  else None.

(** ASCII whitespace as [bytes.fromhex] skips it between bytes. *)
Definition is_space (c : ascii) : bool :=
  let n := Z.of_nat (nat_of_ascii c) in
  (n =? 32) || ((9 <=? n) && (n <=? 13)).

(** [bytes.fromhex(s)]: whitespace is skipped before a byte; a byte is two
    adjacent hexadecimal digits; anything else is a [ValueError]. *)
Fixpoint fromhex_opt (s : string) : option bytes :=
  match s with
  | EmptyString => Some []
  | String c rest =>
      if is_space c then fromhex_opt rest
      else match hex_digit c, rest with
           | Some top, String d rest' =>
               match hex_digit d with
               | Some bot => cons (byte_of_Z (16 * top + bot)) <$> fromhex_opt rest'
               | None => None
               end
           | _, _ => None
           end
  end.

Definition bytes_fromhex (s : string) : result bytes :=
  of_option ValueError (fromhex_opt s).

Fixpoint str_prefix (p s : string) : bool :=
  match p, s with
  | EmptyString, _ => true
  | String a p', String b s' => Ascii.eqb a b && str_prefix p' s'
  | String _ _, EmptyString => false
  end.

(** [p in s] for two strings: [p] occurs as a contiguous substring. *)
Fixpoint str_contains (p s : string) : bool :=
  str_prefix p s ||
  match s with
  | EmptyString => false
  | String _ s' => str_contains p s'
  end.

(** ** JSON values and the Python operations applied to them *)

(** What [json.loads] can return: [None], [bool], [int], [float], [str],
    [list], [dict]. *)
#[warnings="-register-all"] Inductive json : Type :=
| JNull
| JBool (b : bool)
| JInt (n : Z)
| JFloat (f : spec_float)
| JStr (s : string)
| JArr (l : list json)
| JObj (d : gmap string json).

(** Python truth value: [None], [False], zero, and empty containers are
    false. *)
Definition truthy (v : json) : bool :=
  match v with
  | JNull => false
  | JBool b => b
  | JInt n => negb (n =? 0)
  | JFloat (S754_zero _) => false
  | JFloat _ => true
  | JStr s => negb (String.eqb s "")
  | JArr l => match l with [] => false | _ => true end
  | JObj d => negb (bool_decide (d = ∅))
  end.

Definition is_str (k : string) (v : json) : bool :=
  match v with
  | JStr s => String.eqb s k
  | _ => false
  end.

(** [k in v] for a string [k]: key membership on a dict, element
    membership on a list, substring on a string, [TypeError] otherwise. *)
Definition py_contains (k : string) (v : json) : result bool :=
  match v with
  | JObj d => Ok (bool_decide (is_Some (d !! k)))
  | JArr l => Ok (existsb (is_str k) l)
  | JStr s => Ok (str_contains k s)
  | _ => Raise TypeError
  end.

(** [v[k]] for a string [k]. *)
Definition py_getitem (v : json) (k : string) : result json :=
  match v with
  | JObj d => of_option KeyError (d !! k)
  | _ => Raise TypeError
  end.

(** [v[k] = x] for a string [k]. *)
Definition py_setitem (v : json) (k : string) (x : json) : result json :=
  match v with
  | JObj d => Ok (JObj (<[k := x]> d))
  | _ => Raise TypeError
  end.

(** [v.get(k, default)]: only a dict has the method. *)
Definition py_get (v : json) (k : string) (dflt : json) : result json :=
  match v with
  | JObj d => Ok (default dflt (d !! k))
  | _ => Raise AttributeError
  end.

(** ** [datetime] *)

(** A [datetime] is a count of microseconds since 0001-01-01T00:00:00 in
    its own local time, with the UTC offset (in microseconds) when the
    value is timezone-aware. [datetime.utcnow()] is naive. *)
Record datetime : Type := mk_datetime {
  dt_micros : Z;
  dt_utcoffset : option Z
}.

Definition MICROS_PER_DAY : Z := 86400000000.
Definition MICROS_PER_HOUR : Z := 3600000000.
Definition MICROS_PER_SECOND : Z := 1000000.

(** [datetime.max] is 9999-12-31T23:59:59.999999, ordinal day 3652059. *)
Definition DATETIME_MAX : Z := 3652059 * MICROS_PER_DAY - 1.

(** [datetime.timedelta(days=n)], in microseconds. *)
Definition timedelta_days (n : Z) : Z := n * MICROS_PER_DAY.

(** [dt + td]: [OverflowError] outside [datetime.min .. datetime.max]. *)
Definition datetime_add (dt : datetime) (td : Z) : result datetime :=
  let m := dt_micros dt + td in
  if (0 <=? m) && (m <=? DATETIME_MAX)
  then Ok (mk_datetime m (dt_utcoffset dt))
  else Raise OverflowError.

(** [a > b]: comparing a naive with an aware value is a [TypeError]. *)
Definition datetime_gt (a b : datetime) : result bool :=
  match dt_utcoffset a, dt_utcoffset b with
  | None, None => Ok (dt_micros b <? dt_micros a)
  | Some oa, Some ob => Ok (dt_micros b - ob <? dt_micros a - oa)
  | _, _ => Raise TypeError
  end.

(** ** The host platform *)

(** The library functions the client calls and this repository does not
    define: the optional [cryptography] backend, [hashlib], the UTF-8
    codec, [json], [datetime] parsing and printing, and the [platform]
    queries. A [None]-like outcome of the Python function (an exception)
    is a [Raise]. *)
Class Platform : Type := {
  HAS_CRYPTO : bool;
  sha256_digest : bytes → bytes;
  aes_encrypt_block : bytes → bytes → bytes;
  aes_decrypt_block : bytes → bytes → bytes;
  str_encode : string → result bytes;
  bytes_decode : bytes → result string;
  json_dumps : json → string;
  json_loads : string → result json;
  fromisoformat : string → result datetime;
  isoformat : datetime → string;
  platform_system : string;
  platform_release : string;
  platform_machine : string;
  socket_gethostname : string
}.

(** The key sizes [algorithms.AES] accepts: 128, 192 or 256 bits. *)
Definition aes_key_size_ok (key : bytes) : bool :=
  let bits := 8 * Z.of_nat (length key) in
  (bits =? 128) || (bits =? 192) || (bits =? 256).

(** What the cryptography backend and the codec guarantee: under a key of
    an accepted size the block cipher maps 16-byte blocks to 16-byte
    blocks and decryption inverts encryption; decoding inverts
    encoding. *)
Class PlatformLaws (P : Platform) : Prop := {
  aes_encrypt_block_length : ∀ key blk,
    aes_key_size_ok key = true →
    length blk = 16%nat → length (aes_encrypt_block key blk) = 16%nat;
  aes_decrypt_encrypt_block : ∀ key blk,
    aes_key_size_ok key = true →
    length blk = 16%nat →
    aes_decrypt_block key (aes_encrypt_block key blk) = blk;
  bytes_decode_encode : ∀ s b,
    str_encode s = Ok b → bytes_decode b = Ok s
}.

(** ** AES-256-CBC through the [cryptography] interface *)

Definition byte_xor (a b : byte) : byte :=
  byte_of_Z (Z.lxor (byte_val a) (byte_val b)).

Definition xor_bytes (a b : bytes) : bytes := zip_with byte_xor a b.

(** The data cut into consecutive blocks of [n] bytes (the last one may be
    shorter). [fuel] bounds the number of blocks. *)
Fixpoint chunks_fuel (fuel n : nat) (data : bytes) : list bytes :=
  match fuel with
  | O => []
  | S fuel' =>
      match data with
      | [] => []
      | _ => take n data :: chunks_fuel fuel' n (drop n data)
      end
  end.

Definition chunks (n : nat) (data : bytes) : list bytes :=
  chunks_fuel (length data) n data.

Record Cipher_ctx : Type := mk_cipher { c_key : bytes; c_iv : bytes }.

(** [Cipher(algorithms.AES(key), modes.CBC(iv), backend)]: [AES] accepts
    keys of 128, 192 or 256 bits, and [CBC] an IV of one block; anything
    else is a [ValueError]. *)
Definition Cipher (key iv : bytes) : result Cipher_ctx :=
  if negb (aes_key_size_ok key) then Raise ValueError
  else if negb (Z.of_nat (length iv) =? block_size) then Raise ValueError
  else Ok (mk_cipher key iv).

Section Crypto.
Context {P : Platform}.

Fixpoint cbc_encrypt_blocks (key prev : bytes) (blocks : list bytes) : bytes :=
  match blocks with
  | [] => []
  | p :: rest =>
      let c := aes_encrypt_block key (xor_bytes p prev) in
      c ++ cbc_encrypt_blocks key c rest
  end.

Fixpoint cbc_decrypt_blocks (key prev : bytes) (blocks : list bytes) : bytes :=
  match blocks with
  | [] => []
  | c :: rest =>
      xor_bytes (aes_decrypt_block key c) prev ++ cbc_decrypt_blocks key c rest
  end.

(** [encryptor.update(data) + encryptor.finalize()]: without a padder,
    [finalize] raises [ValueError] when the data is not a whole number
    of blocks. *)
Definition encryptor_run (c : Cipher_ctx) (data : bytes) : result bytes :=
  if negb (Z.of_nat (length data) mod block_size =? 0) then Raise ValueError
  else Ok (cbc_encrypt_blocks (c_key c) (c_iv c) (chunks 16 data)).

Definition decryptor_run (c : Cipher_ctx) (data : bytes) : result bytes :=
  if negb (Z.of_nat (length data) mod block_size =? 0) then Raise ValueError
  else Ok (cbc_decrypt_blocks (c_key c) (c_iv c) (chunks 16 data)).

(** [_encrypt_aes(data, key, iv)] *)
Definition _encrypt_aes (data : string) (key iv : bytes) : result bytes :=
  (cipher <- Cipher key iv ;;
   encoded <- str_encode data ;;
   let padded_data := _pad_data encoded in
   encryptor_run cipher padded_data)%res.

(** [_decrypt_aes(data, key, iv)] *)
Definition _decrypt_aes (data key iv : bytes) : result string :=
  (cipher <- Cipher key iv ;;
   decrypted_data <- decryptor_run cipher data ;;
   unpadded_data <- _unpad_data decrypted_data ;;
   bytes_decode unpadded_data)%res.
End Crypto.

(** ** The client object and the world it runs in *)

(** The attributes of a [LicenseClient] instance. [license_key] and
    [license_info] may be [None]. *)
Record LicenseClient : Type := mk_client {
  api_url : string;
  product_id : string;
  version : string;
  license_key : option string;
  hwid : string;
  license_info : option json;
  offline_mode : bool
}.

(** The file at [self.cache_file]: missing, present but not readable as
    text, or holding text. *)
Inductive file : Type :=
| NoFile
| Unreadable
| FileText (text : string).

(** Observable interactions with the network and the file system. *)
Inductive io_event : Type :=
| IoRequest (url : string) (body : bytes)
| IoExists
| IoRead
| IoWrite (text : string)
| IoChmod.

(** The environment of one call: the clock, the entropy source, the
    license authority's answer to the POST (a transport failure is a
    [Raise]), the cache file, whether writing the file goes through
    (it can be opened and the whole text written), what a write that
    does not go through leaves behind ([None]: the file could not be
    opened and is untouched; [Some n]: it was opened, which truncates
    it, and the first [n] characters got through), whether the file
    system lets the client change the file's mode, and the log of the
    interactions so far (most recent first). *)
Record World : Type := mk_world {
  w_now : Z;
  w_entropy : bytes;
  w_server : result bytes;
  w_cache_file : file;
  w_can_write : bool;
  w_failed_write_keeps : option nat;
  w_can_chmod : bool;
  w_log : list io_event
}.

Record state : Type := mk_state {
  self : LicenseClient;
  world : World
}.

Definition set_license_info (v : option json) (c : LicenseClient) : LicenseClient :=
  mk_client (api_url c) (product_id c) (version c) (license_key c) (hwid c)
            v (offline_mode c).

Definition set_offline_mode (b : bool) (c : LicenseClient) : LicenseClient :=
  mk_client (api_url c) (product_id c) (version c) (license_key c) (hwid c)
            (license_info c) b.

Definition set_cache_file (f : file) (w : World) : World :=
  mk_world (w_now w) (w_entropy w) (w_server w) f
           (w_can_write w) (w_failed_write_keeps w) (w_can_chmod w) (w_log w).

Definition log_event (ev : io_event) (w : World) : World :=
  mk_world (w_now w) (w_entropy w) (w_server w) (w_cache_file w)
           (w_can_write w) (w_failed_write_keeps w) (w_can_chmod w)
           (ev :: w_log w).

(** ** Methods as state transformers that may raise *)

Definition M (A : Type) : Type := state → result A * state.

Definition ret {A} (a : A) : M A := λ st, (Ok a, st).

Definition raise {A} (e : exn) : M A := λ st, (Raise e, st).

Definition lift {A} (r : result A) : M A := λ st, (r, st).

Definition bind {A B} (m : M A) (k : A → M B) : M B :=
  λ st, match m st with
        | (Ok a, st') => k a st'
        | (Raise e, st') => (Raise e, st')
        end.

(** [try: body except Exception as e: handler]. Effects of [body] up to
    the point of the exception are kept. *)
Definition try_except {A} (body : M A) (handler : exn → M A) : M A :=
  λ st, match body st with
        | (Ok a, st') => (Ok a, st')
        | (Raise e, st') => handler e st'
        end.

Declare Scope method_scope.
Delimit Scope method_scope with M.
Notation "x <- m ;; k" := (bind m (fun x => k))
  (at level 100, m at next level, right associativity) : method_scope.
Notation "m ;;; k" := (bind m (fun _ => k))
  (at level 100, right associativity) : method_scope.

Definition get_self : M LicenseClient := λ st, (Ok (self st), st).

Definition get_world : M World := λ st, (Ok (world st), st).

Definition modify_self (f : LicenseClient → LicenseClient) : M unit :=
  λ st, (Ok tt, mk_state (f (self st)) (world st)).

Definition modify_world (f : World → World) : M unit :=
  λ st, (Ok tt, mk_state (self st) (f (world st))).

(** [os.path.exists(self.cache_file)] *)
Definition os_path_exists : M bool :=
  (modify_world (log_event IoExists) ;;;
   w <- get_world ;;
   ret (match w_cache_file w with NoFile => false | _ => true end))%M.

(** [with open(self.cache_file, 'r') as f: data = f.read()] *)
Definition read_cache_file : M string :=
  (modify_world (log_event IoRead) ;;;
   w <- get_world ;;
   match w_cache_file w with
   | FileText text => ret text
   | _ => raise OSError
   end)%M.

(** [with open(self.cache_file, 'w') as f: f.write(text)]. Opening the
    file for writing empties it before anything is written, so a write
    that fails after the open leaves the file with the part of the text
    that got through, possibly nothing. *)
Definition write_cache_file (text : string) : M unit :=
  (modify_world (log_event (IoWrite text)) ;;;
   w <- get_world ;;
   if w_can_write w then
     modify_world (set_cache_file (FileText EmptyString)) ;;;
     modify_world (set_cache_file (FileText text))
   else
     match w_failed_write_keeps w with
     | None => raise OSError
     | Some n =>
         modify_world (set_cache_file (FileText EmptyString)) ;;;
         modify_world (set_cache_file (FileText (String.substring 0 n text))) ;;;
         raise OSError
     end)%M.

(** [os.chmod(self.cache_file, 0o600)] *)
Definition os_chmod : M unit :=
  (modify_world (log_event IoChmod) ;;;
   w <- get_world ;;
   if w_can_chmod w then ret tt else raise OSError)%M.

(** [os.urandom(n)]: exactly [n] bytes of the world's entropy. *)
Definition os_urandom (n : nat) : M bytes :=
  (w <- get_world ;;
   let r := take n (w_entropy w) in
   ret (r ++ replicate (n - length r) x00))%M.

(** [datetime.datetime.utcnow()] *)
Definition utcnow : M datetime :=
  (w <- get_world ;; ret (mk_datetime (w_now w) None))%M.

(** [urllib.request.urlopen(req, timeout=...)] followed by
    [response.read()]. *)
Definition urlopen_read (url : string) (body : bytes) : M bytes :=
  (modify_world (log_event (IoRequest url body)) ;;;
   w <- get_world ;;
   lift (w_server w))%M.

(** ** [LicenseClient] methods *)

Definition OFFLINE_GRACE_DAYS : Z := 7.

(** [datetime.datetime.fromisoformat(v)]: [v] must be a [str]. *)
Definition datetime_fromisoformat {P : Platform} (v : json) : result datetime :=
  match v with
  | JStr s => fromisoformat s
  | _ => Raise TypeError
  end.

(** [not self.license_key] *)
Definition key_missing (k : option string) : bool :=
  match k with
  | None => true
  | Some s => String.eqb s ""
  end.

(** [not self.license_info] *)
Definition info_missing (i : option json) : bool :=
  match i with
  | None => true
  | Some v => negb (truthy v)
  end.

(** [self.license_info.get(k, dflt)]; [None] has no [get]. *)
Definition info_get (i : option json) (k : string) (dflt : json) : result json :=
  match i with
  | None => Raise AttributeError
  | Some v => py_get v k dflt
  end.

Section Methods.
Context {P : Platform}.

(** [_get_encryption_key]: [hashlib.sha256(self.hwid.encode()).digest()] *)
Definition _get_encryption_key : M bytes :=
  (c <- get_self ;;
   encoded <- lift (str_encode (hwid c)) ;;
   ret (sha256_digest encoded))%M.

(** [save_cache] *)
Definition save_cache : M bool :=
  try_except
    (c <- get_self ;;
     no_record <- (if info_missing (license_info c) then ret true
                   else
                     valid <- lift (info_get (license_info c) "valid" JNull) ;;
                     ret (negb (truthy valid))) ;;
     if no_record then ret false
     else if negb HAS_CRYPTO then ret false
     else
       key <- _get_encryption_key ;;
       iv <- os_urandom 16 ;;
       let json_data := json_dumps (default JNull (license_info c)) in
       encrypted_data <- lift (_encrypt_aes json_data key iv) ;;
       let iv_hex := bytes_hex iv in
       let encrypted_hex := bytes_hex encrypted_data in
       let encrypted_combined := (iv_hex ++ ":" ++ encrypted_hex)%string in
       write_cache_file encrypted_combined ;;;
       os_chmod ;;;
       ret true)%M
    (λ _, ret false).

(** [cache['expiresAt'] and now > fromisoformat(cache['expiresAt'])]:
    the comparison is made only for a true [expiresAt]. *)
Definition license_expired (now : datetime) (expires_raw : json) : result bool :=
  if truthy expires_raw then
    (expires_at <- datetime_fromisoformat expires_raw ;;
     datetime_gt now expires_at)%res
  else Ok false.

(** [validate_offline] (the second definition in the class body, which
    replaces the placeholder of the same name). *)
Definition validate_offline : M bool :=
  try_except
    (file_exists <- os_path_exists ;;
     if negb file_exists then ret false
     else
       data <- read_cache_file ;;
       parts <- lift (unpack2 (str_split ":" data)) ;;
       let iv_hex := parts.1 in
       let encrypted_data_hex := parts.2 in
       iv <- lift (bytes_fromhex iv_hex) ;;
       encrypted_data <- lift (bytes_fromhex encrypted_data_hex) ;;
       if negb HAS_CRYPTO then ret false
       else
         key <- _get_encryption_key ;;
         decrypted <- lift (_decrypt_aes encrypted_data key iv) ;;
         cache <- lift (json_loads decrypted) ;;
         has_validated <- lift (py_contains "validatedAt" cache) ;;
         incomplete <- (if negb has_validated then ret true
                        else
                          has_expires <- lift (py_contains "expiresAt" cache) ;;
                          ret (negb has_expires)) ;;
         if incomplete then ret false
         else
           validated_raw <- lift (py_getitem cache "validatedAt") ;;
           validated_at <- lift (datetime_fromisoformat validated_raw) ;;
           now <- utcnow ;;
           let offline_limit := timedelta_days OFFLINE_GRACE_DAYS in
           offline_expires <- lift (datetime_add validated_at offline_limit) ;;
           grace_over <- lift (datetime_gt now offline_expires) ;;
           if grace_over then ret false
           else
             expires_raw <- lift (py_getitem cache "expiresAt") ;;
             expired <- lift (license_expired now expires_raw) ;;
             if expired then ret false
             else
               modify_self (set_license_info (Some cache)) ;;;
               c <- get_self ;;
               info <- lift (py_setitem (default JNull (license_info c))
                                        "offlineMode" (JBool true)) ;;
               modify_self (set_license_info (Some info)) ;;;
               modify_self (set_offline_mode true) ;;;
               ret true)%M
    (λ _, ret false).

(** The [machine_info] and [request_data] dicts that [validate] posts. *)
Definition machine_info : json :=
  JObj (list_to_map
    [("os", JStr platform_system);
     ("version", JStr platform_release);
     ("arch", JStr platform_machine);
     ("hostname", JStr socket_gethostname)]%string).

Definition request_data (c : LicenseClient) : json :=
  JObj (list_to_map
    [("key", JStr (default "" (license_key c)));
     ("hwid", JStr (hwid c));
     ("product", JStr (product_id c));
     ("version", JStr (version c));
     ("machine", machine_info)]%string).

(** The record [validate] stores for a license the server accepts. *)
Definition valid_record (expires features owner : json) (now : datetime) : json :=
  JObj (list_to_map
    [("valid", JBool true);
     ("expiresAt", expires);
     ("features", features);
     ("owner", owner);
     ("validatedAt", JStr (isoformat now));
     ("offlineMode", JBool false)]%string).

(** The record [validate] stores for a license the server rejects. *)
Definition invalid_record (error : json) : json :=
  JObj (list_to_map [("valid", JBool false); ("error", error)]%string).

(** [print(f"{prefix}{v}")]. The f-string takes [str(v)]: a [str] goes
    into the line as it is, every other JSON value through its [repr],
    which escapes whatever a console could not show. The console encodes
    the line with the UTF-8 codec, so the call raises exactly when the
    line has no encoding (a lone surrogate in the text). *)
Definition print_formatted (prefix : string) (v : json) : M unit :=
  match v with
  | JStr s => lift (rbind (str_encode (prefix ++ s)%string) (λ _, Ok tt))
  | _ => ret tt
  end.

(** [validate]. The value printed in the rejection branch,
    [self.license_info['error']], is the [error] stored just before. *)
Definition validate : M bool :=
  (c <- get_self ;;
   if key_missing (license_key c) then ret false
   else
     try_except
       (body <- lift (str_encode (json_dumps (request_data c))) ;;
        raw <- urlopen_read (api_url c ++ "/verify")%string body ;;
        text <- lift (bytes_decode raw) ;;
        response_data <- lift (json_loads text) ;;
        valid <- lift (py_get response_data "valid" JNull) ;;
        if truthy valid then
          expires <- lift (py_get response_data "expiresAt" JNull) ;;
          features <- lift (py_get response_data "features" (JArr [])) ;;
          owner <- lift (py_get response_data "owner" (JStr "Unknown")) ;;
          now <- utcnow ;;
          modify_self (set_license_info
                         (Some (valid_record expires features owner now))) ;;;
          modify_self (set_offline_mode false) ;;;
          save_cache ;;;
          ret true
        else
          error <- lift (py_get response_data "error"
                                (JStr "License validation failed")) ;;
          modify_self (set_license_info (Some (invalid_record error))) ;;;
          print_formatted "License validation failed: " error ;;;
          ret false)
       (λ _,
        ok <- validate_offline ;;
        if ok then ret true else ret false))%M.

End Methods.

(** ** A small host on which the model runs

    An instance of [Platform] that computes: an ASCII codec, a
    byte-wise keyed block permutation in place of AES, ISO timestamps of
    the form [YYYY-MM-DDTHH:MM:SS] with an optional [+HH:MM] offset, and
    flat records written as [key=value;key=value]. It stands in for the
    Python libraries wherever a statement is evaluated on concrete data. *)
Module TestHost.

Definition is_leap (y : Z) : bool :=
  (y mod 4 =? 0) && (negb (y mod 100 =? 0) || (y mod 400 =? 0)).

Definition days_before_year (y : Z) : Z :=
  let p := y - 1 in p * 365 + p / 4 - p / 100 + p / 400.

Definition days_in_month (y m : Z) : Z :=
  if m =? 2 then (if is_leap y then 29 else 28)
  else if (m =? 4) || (m =? 6) || (m =? 9) || (m =? 11) then 30
  else 31.

Definition days_before_month (y m : Z) : Z :=
  fold_right Z.add 0
    (map (days_in_month y) (map Z.of_nat (seq 1 (Z.to_nat (m - 1))))).

Definition digit (c : ascii) : option Z :=
  let n := Z.of_nat (nat_of_ascii c) in
  if (48 <=? n) && (n <=? 57) then Some (n - 48) else None.

Fixpoint number_acc (acc : Z) (s : string) : option Z :=
  match s with
  | EmptyString => Some acc
  | String c rest =>
      match digit c with
      | Some d => number_acc (10 * acc + d) rest
      | None => None
      end
  end.

(** A non-empty run of decimal digits. *)
Definition number (s : string) : option Z :=
  match s with
  | EmptyString => None
  | _ => number_acc 0 s
  end.

Definition field (s : string) (start len : nat) : option Z :=
  number (String.substring start len s).

Definition char_at (s : string) (i : nat) : option ascii := String.get i s.

Definition parse_offset (s : string) : option (option Z) :=
  match s with
  | EmptyString => Some None
  | String sign rest =>
      if negb (String.length rest =? 5)%nat then None
      else if negb (bool_decide (char_at rest 2 = Some ":"%char)) then None
      else
        h ← field rest 0 2; m ← field rest 3 2;
        let off := h * MICROS_PER_HOUR + m * 60 * MICROS_PER_SECOND in
        if Ascii.eqb sign "+" then Some (Some off)
        else if Ascii.eqb sign "-" then Some (Some (- off))
        else None
  end.

Definition parse_iso (s : string) : option datetime :=
  if (String.length s <? 19)%nat then None
  else if negb (bool_decide (char_at s 4 = Some "-"%char ∧ char_at s 7 = Some "-"%char
                             ∧ char_at s 10 = Some "T"%char
                             ∧ char_at s 13 = Some ":"%char
                             ∧ char_at s 16 = Some ":"%char)) then None
  else
    y ← field s 0 4; mo ← field s 5 2; d ← field s 8 2;
    h ← field s 11 2; mi ← field s 14 2; sec ← field s 17 2;
    off ← parse_offset (String.substring 19 (String.length s - 19) s);
    if (1 <=? y) && (1 <=? mo) && (mo <=? 12) && (1 <=? d)
       && (d <=? days_in_month y mo) && (h <? 24) && (mi <? 60) && (sec <? 60)
    then
      let ordinal := days_before_year y + days_before_month y mo + d in
      Some (mk_datetime ((ordinal - 1) * MICROS_PER_DAY + h * MICROS_PER_HOUR
                         + mi * 60 * MICROS_PER_SECOND + sec * MICROS_PER_SECOND)
                        off)
    else None.

Definition digit_char (n : Z) : ascii := ascii_of_nat (Z.to_nat (48 + n mod 10)).

Definition pad2 (n : Z) : string :=
  String (digit_char (n / 10)) (String (digit_char n) EmptyString).

Definition pad4 (n : Z) : string := (pad2 (n / 100) ++ pad2 (n mod 100))%string.

(** The year and the day within it (from 0) of a day count from
    0001-01-01, by whole 400-, 100-, 4- and 1-year cycles. *)
Definition year_of_days (n : Z) : Z * Z :=
  let n400 := n / 146097 in let r400 := n mod 146097 in
  let n100 := Z.min 3 (r400 / 36524) in let r100 := r400 - n100 * 36524 in
  let n4 := r100 / 1461 in let r4 := r100 mod 1461 in
  let n1 := Z.min 3 (r4 / 365) in let r1 := r4 - n1 * 365 in
  (n400 * 400 + n100 * 100 + n4 * 4 + n1 + 1, r1).

Fixpoint month_of_days (fuel : nat) (y m n : Z) : Z * Z :=
  match fuel with
  | O => (m, n)
  | S fuel' =>
      if n <? days_in_month y m then (m, n)
      else month_of_days fuel' y (m + 1) (n - days_in_month y m)
  end.

Definition print_iso (dt : datetime) : string :=
  let days := dt_micros dt / MICROS_PER_DAY in
  let rest := dt_micros dt mod MICROS_PER_DAY / MICROS_PER_SECOND in
  let yd := year_of_days days in
  let md := month_of_days 11 yd.1 1 yd.2 in
  (pad4 yd.1 ++ "-" ++ pad2 md.1 ++ "-" ++ pad2 (md.2 + 1) ++ "T"
   ++ pad2 (rest / 3600) ++ ":" ++ pad2 (rest / 60 mod 60) ++ ":"
   ++ pad2 (rest mod 60))%string.

Definition is_ascii_byte (b : byte) : bool := byte_val b <? 128.

Definition encode_ascii (s : string) : result bytes :=
  let b := list_byte_of_string s in
  if forallb is_ascii_byte b then Ok b else Raise UnicodeEncodeError.

Definition decode_ascii (b : bytes) : result string :=
  if forallb is_ascii_byte b then Ok (string_of_list_byte b)
  else Raise UnicodeDecodeError.

Definition render_value (v : json) : string :=
  match v with
  | JBool true => "true"
  | JBool false => "false"
  | JStr s => String "'" s
  | JArr _ => "[]"
  | _ => "null"
  end.

Definition parse_value (s : string) : result json :=
  match s with
  | String "'" rest => Ok (JStr rest)
  | _ =>
      if String.eqb s "null" then Ok JNull
      else if String.eqb s "true" then Ok (JBool true)
      else if String.eqb s "false" then Ok (JBool false)
      else if String.eqb s "[]" then Ok (JArr [])
      else Raise JSONDecodeError
  end.

Fixpoint join (sep : string) (xs : list string) : string :=
  match xs with
  | [] => EmptyString
  | [x] => x
  | x :: rest => (x ++ sep ++ join sep rest)%string
  end.

Definition render_record (v : json) : string :=
  match v with
  | JObj d =>
      join ";" (map (λ kv, kv.1 ++ "=" ++ render_value kv.2)%string (map_to_list d))
  | _ => render_value v
  end.

Fixpoint parse_items (items : list string) : result (gmap string json) :=
  match items with
  | [] => Ok ∅
  | item :: rest =>
      (kv <- match str_split "=" item with
             | [k; v] => Ok (k, v)
             | _ => Raise JSONDecodeError
             end ;;
       v <- parse_value kv.2 ;;
       d <- parse_items rest ;;
       Ok (<[kv.1 := v]> d))%res
  end.

Definition parse_record (s : string) : result json :=
  (d <- parse_items (str_split ";" s) ;; Ok (JObj d))%res.

Definition key_byte (key : bytes) : byte := hd x00 key.

#[export] Instance host : Platform := {|
  HAS_CRYPTO := true;
  sha256_digest := λ b, take 32 (b ++ replicate 32 x5c);
  aes_encrypt_block := λ key blk, map (byte_xor (key_byte key)) blk;
  aes_decrypt_block := λ key blk, map (byte_xor (key_byte key)) blk;
  str_encode := encode_ascii;
  bytes_decode := decode_ascii;
  json_dumps := render_record;
  json_loads := parse_record;
  fromisoformat := λ s, of_option ValueError (parse_iso s);
  isoformat := print_iso;
  platform_system := "Linux";
  platform_release := "6.1";
  platform_machine := "x86_64";
  socket_gethostname := "build-host"
|}.

(** The same host without the [cryptography] package. *)
Definition host_without_crypto : Platform := {|
  HAS_CRYPTO := false;
  sha256_digest := sha256_digest;
  aes_encrypt_block := aes_encrypt_block;
  aes_decrypt_block := aes_decrypt_block;
  str_encode := str_encode;
  bytes_decode := bytes_decode;
  json_dumps := json_dumps;
  json_loads := json_loads;
  fromisoformat := fromisoformat;
  isoformat := isoformat;
  platform_system := platform_system;
  platform_release := platform_release;
  platform_machine := platform_machine;
  socket_gethostname := socket_gethostname
|}.

End TestHost.


(** ** Vocabulary for the statements *)

(** The cache file of [st] holds text [iv_hex:cipher_hex] that the first
    half of [validate_offline] (existence test, read, split, hex decoding,
    capability test, key derivation, decryption, [json.loads]) turns into
    the value [cache]. *)
Definition cache_decrypts_to {P : Platform} (st : state) (cache : json) : Prop :=
  ∃ (data iv_hex cipher_hex : string) (iv cipher hw : bytes) (text : string),
    w_cache_file (world st) = FileText data
    ∧ str_split ":" data = [iv_hex; cipher_hex]
    ∧ bytes_fromhex iv_hex = Ok iv
    ∧ bytes_fromhex cipher_hex = Ok cipher
    ∧ HAS_CRYPTO = true
    ∧ str_encode (hwid (self st)) = Ok hw
    ∧ _decrypt_aes cipher (sha256_digest hw) iv = Ok text
    ∧ json_loads text = Ok cache.

(** The world after [validate_offline] found and read the cache file. *)
Definition after_cache_read (w : World) : World :=
  log_event IoRead (log_event IoExists w).

(** The client after [validate_offline] accepted the cached dict [d]. *)
Definition offline_client (d : gmap string json) (c : LicenseClient) : LicenseClient :=
  set_offline_mode true
    (set_license_info (Some (JObj (<["offlineMode" := JBool true]> d))) c).

(** A naive [datetime] at [t] microseconds. *)
Definition naive (t : Z) : datetime := mk_datetime t None.

(** The tests [validate_offline] applies to a decrypted dict [d] at clock
    reading [now]: both keys are present, [validatedAt] parses, adding the
    grace period does not overflow, the grace period is not over, and the
    license has not expired. *)
Definition offline_checks {P : Platform} (now : Z) (d : gmap string json) : Prop :=
  ∃ (validated_raw expires_raw : json) (validated_at offline_expires : datetime),
    d !! "validatedAt" = Some validated_raw
    ∧ d !! "expiresAt" = Some expires_raw
    ∧ datetime_fromisoformat validated_raw = Ok validated_at
    ∧ datetime_add validated_at (timedelta_days OFFLINE_GRACE_DAYS) = Ok offline_expires
    ∧ datetime_gt (naive now) offline_expires = Ok false
    ∧ license_expired (naive now) expires_raw = Ok false.

(** The acceptance rule in the specification's words: the time since
    [validatedAt] is at most the grace period, and [expiresAt] is absent
    or not before [now]. *)
Definition spec_offline_acceptance (now validated_at : Z) (expires_at : option Z) : Prop :=
  now - validated_at ≤ timedelta_days OFFLINE_GRACE_DAYS
  ∧ (expires_at = None ∨ ∃ e, expires_at = Some e ∧ now ≤ e).

(** The [expiresAt] value of a well-typed record: [null] (no expiry), or
    the non-empty ISO text of a naive timestamp. *)
Definition expiry_value {P : Platform} (x : json) (e : option Z) : Prop :=
  (x = JNull ∧ e = None)
  ∨ (∃ s t, x = JStr s ∧ s ≠ EmptyString ∧ fromisoformat s = Ok (naive t) ∧ e = Some t).

(** ** Concrete scenarios on the test host *)
Module Scenario.
Import TestHost.

Definition client : LicenseClient :=
  mk_client "https://api.hexrift.net/api" "Hex-Status-2.0" "2.0.0"
            (Some "HEX-0000-1111") "ab12" None false.

Definition client_without_key : LicenseClient :=
  mk_client "https://api.hexrift.net/api" "Hex-Status-2.0" "2.0.0"
            None "ab12" None false.

(** A world in which the license authority cannot be reached. *)
Definition offline_world (now : Z) (f : file) : World :=
  mk_world now [] (Raise URLError) f true None true [].

(** A world in which the license authority answers with [body]. *)
Definition online_world (now : Z) (body : string) (f : file) : World :=
  mk_world now [x01; x02; x03; x04; x05; x06; x07; x08;
                x09; x0a; x0b; x0c; x0d; x0e; x0f; x10]
           (Ok (list_byte_of_string body)) f true None true [].

(** 2024-01-08T12:30:05, and some later instants. *)
Definition t_validated : Z := 63840313805000000.
Definition t_three_days_later : Z := 63840573005000000.
Definition t_six_days_23h_later : Z := 63840915005000000.
Definition t_seven_days_1s_later : Z := 63840918606000000.

(** A record that has [validatedAt] but no [expiresAt] key, and the cache
    file that holds it encrypted for [client]. *)
Definition record_without_expiry_key : gmap string json :=
  {[ "validatedAt" := JStr "2024-01-08T12:30:05" ]}.

Definition file_without_expiry_key : file :=
  FileText "0102030405060708090a0b0c0d0e0f10:16020e0c0006120c0c2a1e504b5d5e43434e5f5c4c574b395c7945021a060f17323f2e2d3d263a482d0834736b777e66".

(** A record whose [expiresAt] is [null], and its cache file. *)
Definition record_null_expiry : gmap string json :=
  <[ "expiresAt" := JNull ]> {[ "validatedAt" := JStr "2024-01-08T12:30:05" ]}.

Definition file_null_expiry : file :=
  FileText "0102030405060708090a0b0c0d0e0f10:051b120c160215281c5604180003550705161a091617112d3c43585e5352065249474a45474e247d6f180a0f08035232".

End Scenario.

(** A key of 32 bytes and an IV of 16 bytes. *)
Module Sample.

Definition key : bytes :=
  [x00; x01; x02; x03; x04; x05; x06; x07; x08; x09; x0a; x0b; x0c; x0d; x0e; x0f;
   x10; x11; x12; x13; x14; x15; x16; x17; x18; x19; x1a; x1b; x1c; x1d; x1e; x1f].

Definition iv : bytes :=
  [xa0; xa1; xa2; xa3; xa4; xa5; xa6; xa7; xa8; xa9; xaa; xab; xac; xad; xae; xaf].

Definition payload : string := "expiresAt=null;validatedAt='2024-01-08T12:30:05".

End Sample.

Module ScenarioOnline.
Import TestHost.

(** The client's state after the server rejected the license. *)
Definition rejected_client : LicenseClient :=
  set_license_info
    (Some (invalid_record (JStr "License revoked"))) Scenario.client.

(** The body of a rejection: [valid] is [false], [error] a message. *)
Definition rejection_body : string := "valid=false;error='License revoked".

Definition rejection : gmap string json :=
  <[ "valid" := JBool false ]> {[ "error" := JStr "License revoked" ]}.

End ScenarioOnline.

(** ** The query methods *)

(** [is_valid]: [self.license_info is not None and
    self.license_info.get('valid', False)]. The value of the [and] is
    [False] for a missing record and otherwise whatever [get] returns. *)
Definition is_valid (c : LicenseClient) : result json :=
  match license_info c with
  | None => Ok (JBool false)
  | Some v => py_get v "valid" (JBool false)
  end.

(** [is_offline_mode]: the same test on ['offlineMode']. *)
Definition is_offline_mode (c : LicenseClient) : result json :=
  match license_info c with
  | None => Ok (JBool false)
  | Some v => py_get v "offlineMode" (JBool false)
  end.

(** [has_feature(feature_name)] *)
Definition has_feature (c : LicenseClient) (feature_name : string) : result bool :=
  (valid <- is_valid c ;;
   if negb (truthy valid) then Ok false
   else
     features <- info_get (license_info c) "features" (JArr []) ;;
     py_contains feature_name features)%res.

(** ** [generate_hwid] *)

(** [sep.join(xs)] *)
Fixpoint str_join (sep : string) (xs : list string) : string :=
  match xs with
  | [] => EmptyString
  | [x] => x
  | x :: rest => (x ++ sep ++ str_join sep rest)%string
  end.

(** What the machine reports to [generate_hwid] beyond the [Platform]
    queries: whether [psutil] and [netifaces] could be imported, the
    processor name, [str(os.cpu_count())], the interfaces as
    [netifaces.ifaddresses] describes them (for each one the entries of
    the [AF_LINK] family if it has that family, and for each entry its
    ['addr'] if it has one), the addresses the [getmac]/[ifconfig] scan
    extracts when [netifaces] is missing (the scan can fail), and
    [str(psutil.virtual_memory().total)]. *)
Record HostFacts : Type := mk_host_facts {
  HAS_NETINFO : bool;
  platform_processor : string;
  os_cpu_count : string;
  netifaces_interfaces : list (option (list (option string)));
  fallback_mac_scan : result (list string);
  psutil_mem_total : string
}.

(** One turn of the loop over the interfaces: the first [AF_LINK] entry
    contributes its address unless that is empty or all zero. *)
Definition link_address (addresses : option (list (option string))) : list string :=
  match addresses with
  | Some (Some mac :: _) =>
      if negb (String.eqb mac "") && negb (String.eqb mac "00:00:00:00:00:00")
      then [mac] else []
  | _ => []
  end.

Definition netinfo_mac_addresses (interfaces : list (option (list (option string)))) : list string :=
  concat (map link_address interfaces).

(** [filter(None, system_info)]: the non-empty strings. *)
Definition nonempty_strings (xs : list string) : list string :=
  List.filter (λ s, negb (String.eqb s "")) xs.

Definition generate_hwid {P : Platform} (h : HostFacts) : result string :=
  (let system_info :=
     [socket_gethostname; platform_system; platform_release;
      platform_processor h; os_cpu_count h] in
   mac_addresses <- (if HAS_NETINFO h
                     then Ok (netinfo_mac_addresses (netifaces_interfaces h))
                     else fallback_mac_scan h) ;;
   let system_info :=
     match mac_addresses with
     | [] => system_info
     | _ => system_info ++ [str_join "," mac_addresses]
     end in
   let system_info :=
     if HAS_NETINFO h then system_info ++ [psutil_mem_total h] else system_info in
   let system_string := str_join "|" (nonempty_strings system_info) in
   encoded <- str_encode system_string ;;
   Ok (bytes_hex (sha256_digest encoded)))%res.

(** ** Further vocabulary *)

(** The number of occurrences of [c] in [s]. *)
Fixpoint count_char (c : ascii) (s : string) : nat :=
  match s with
  | EmptyString => O
  | String a rest => ((if Ascii.eqb a c then 1 else 0) + count_char c rest)%nat
  end.

(** The request was sent and did not come back with a JSON object: the
    transport failed, the body is not UTF-8, it is not JSON, or it is a
    JSON value other than an object. *)
Definition no_server_verdict {P : Platform} (w : World) : Prop :=
  (∃ e, w_server w = Raise e)
  ∨ (∃ raw e, w_server w = Ok raw ∧ bytes_decode raw = Raise e)
  ∨ (∃ raw text e,
        w_server w = Ok raw ∧ bytes_decode raw = Ok text
        ∧ json_loads text = Raise e)
  ∨ (∃ raw text v,
        w_server w = Ok raw ∧ bytes_decode raw = Ok text
        ∧ json_loads text = Ok v ∧ ∀ d, v ≠ JObj d).

(** The world once [validate] has posted its request. *)
Definition after_request {P : Platform} (c : LicenseClient) (body : bytes) (w : World) : World :=
  log_event (IoRequest (api_url c ++ "/verify")%string body) w.

(** The record [validate] builds from the server's answer [resp] at clock
    reading [now]. *)
Definition record_from_response {P : Platform} (resp : gmap string json) (now : Z) : json :=
  valid_record (default JNull (resp !! "expiresAt"))
               (default (JArr []) (resp !! "features"))
               (default (JStr "Unknown") (resp !! "owner"))
               (naive now).

(** The text [save_cache] writes for ciphertext [ct] under IV [iv]. *)
Definition cache_text (iv ct : bytes) : string :=
  (bytes_hex iv ++ ":" ++ bytes_hex ct)%string.

(** [os.urandom(16)] as the world [w] answers it. *)
Definition world_iv (w : World) : bytes :=
  take 16 (w_entropy w) ++ replicate (16 - length (take 16 (w_entropy w))) x00.

Module ScenarioHost.

(** A machine with [netifaces]: a loopback interface with an all-zero
    address, an interface without link-layer family, one with an empty
    link-layer list, and one network card. *)
Definition facts : HostFacts :=
  mk_host_facts true "x86_64" "8"
    [Some [Some "00:00:00:00:00:00"]; None; Some []; Some [None];
     Some [Some "52:54:00:12:34:56"; Some "aa:bb:cc:dd:ee:ff"]]%string
    (Ok []) "16777216000".

Definition facts_card_only : HostFacts :=
  mk_host_facts true "x86_64" "8"
    [Some [Some "52:54:00:12:34:56"; Some "aa:bb:cc:dd:ee:ff"]]%string
    (Ok []) "16777216000".

End ScenarioHost.

Module ScenarioMore.
Import TestHost.

(** The body of an acceptance without expiry, and the parsed answer. *)
Definition acceptance_body : string := "valid=true;owner='Acme;expiresAt=null".

Definition acceptance : gmap string json :=
  <[ "valid" := JBool true ]>
    (<[ "owner" := JStr "Acme" ]> {[ "expiresAt" := JNull ]}).

(** The server answers with the acceptance at 2024-01-08T12:30:05; there
    is no cache file yet. *)
Definition online_state : state :=
  mk_state Scenario.client
    (Scenario.online_world Scenario.t_validated acceptance_body NoFile).

(** The record an accepted client holds, and such a client. *)
Definition saved_record : gmap string json :=
  list_to_map
    [("valid", JBool true);
     ("expiresAt", JNull);
     ("features", JArr []);
     ("owner", JStr "Acme");
     ("validatedAt", JStr "2024-01-08T12:30:05");
     ("offlineMode", JBool false)]%string.

Definition accepted_client : LicenseClient :=
  set_license_info (Some (JObj saved_record)) Scenario.client.

Definition accepted_state : state :=
  mk_state accepted_client
    (Scenario.online_world Scenario.t_validated acceptance_body NoFile).

(** The cache file [validate] leaves behind in [online_state]. *)
Definition file_after_acceptance : file :=
  FileText "0102030405060708090a0b0c0d0e0f10:0f140c00165a41280b060f560309081d071b082c185f45740c06024407530c0416131b280a7f502803120f495d440c091e161b3d0e7a703d5f545c180e1140584e5a4a643b2a23660d0507495a4b575843524f382e393762570203494f5f445c510e750443545a0f3a6f6e2422322931".

(** An accepted client over an older cache, on a disk that fills up ten
    characters into a write. *)
Definition full_disk_state : state :=
  mk_state accepted_client
    (mk_world Scenario.t_validated [] (Raise URLError)
              Scenario.file_null_expiry false (Some 10%nat) true []).

(** A record whose [validatedAt] carries a UTC offset, and its cache
    file. *)
Definition record_aware : gmap string json :=
  <[ "expiresAt" := JNull ]>
    {[ "validatedAt" := JStr "2024-01-08T12:30:05+02:00" ]}.

Definition file_aware : file :=
  FileText "0102030405060708090a0b0c0d0e0f10:051b120c160215281c5604180003550705161a091617112d3c43585e5352065249474a45474e247d6f180a0f080352181814111416244e170572606562693872".

(** A record whose [expiresAt] is [false], and its cache file. *)
Definition record_false_expiry : gmap string json :=
  <[ "expiresAt" := JBool false ]>
    {[ "validatedAt" := JStr "2024-01-08T12:30:05" ]}.

Definition file_false_expiry : file :=
  FileText "0102030405060708090a0b0c0d0e0f10:051b120c160215281c560c0c001c0b4a121b1f041302002c19761950464f5a1947574e545f5359194925420217140b4d36263f252e2228683854337366657a3c".

End ScenarioMore.

(** ** Printing the server's message *)

(** The line [prefix] followed by [str(v)] has an encoding, so that
    printing it does not raise. Only a [str] value can spoil the line. *)
Definition line_encodes {P : Platform} (prefix : string) (v : json) : Prop :=
  ∀ s, v = JStr s → ∃ b, str_encode (prefix ++ s)%string = Ok b.

(** The test host with one JSON escape: [\ud800] in a text stands for the
    lone surrogate U+D800, held here as the bytes ED A0 80, for which the
    codec has no encoding. *)
Module SurrogateHost.

Definition surrogate : string :=
  String (ascii_of_nat 237) (String (ascii_of_nat 160)
    (String (ascii_of_nat 128) EmptyString)).

Fixpoint unescape (s : string) : string :=
  match s with
  | String "\" (String "u" (String "d" (String "8" (String "0" (String "0" rest))))) =>
      (surrogate ++ unescape rest)%string
  | String c rest => String c (unescape rest)
  | EmptyString => EmptyString
  end.

Definition host : Platform := {|
  HAS_CRYPTO := true;
  sha256_digest := sha256_digest (Platform := TestHost.host);
  aes_encrypt_block := aes_encrypt_block (Platform := TestHost.host);
  aes_decrypt_block := aes_decrypt_block (Platform := TestHost.host);
  str_encode := TestHost.encode_ascii;
  bytes_decode := TestHost.decode_ascii;
  json_dumps := TestHost.render_record;
  json_loads := λ s, TestHost.parse_record (unescape s);
  fromisoformat := fromisoformat (Platform := TestHost.host);
  isoformat := TestHost.print_iso;
  platform_system := "Linux";
  platform_release := "6.1";
  platform_machine := "x86_64";
  socket_gethostname := "build-host"
|}.

(** The server rejects the license with an error message that is a lone
    surrogate, three days after the cache of [Scenario.file_null_expiry]
    was written. *)
Definition rejection_body : string := "valid=false;error='\ud800".

Definition rejection : gmap string json :=
  <[ "valid" := JBool false ]> {[ "error" := JStr surrogate ]}.

Definition rejection_state : state :=
  mk_state Scenario.client
    (Scenario.online_world Scenario.t_three_days_later rejection_body
                           Scenario.file_null_expiry).

End SurrogateHost.
(** * Properties *)

(** ** The helpers on concrete data *)

Example unpad_example :
  _unpad_data [x41; x42; x43; x02; x02] = Ok [x41; x42; x43].
Proof. reflexivity. Qed.

Example unpad_zero : _unpad_data [x41; x42; x00] = Ok [].
Proof. reflexivity. Qed.

Example unpad_large : _unpad_data [x41; x42; xff] = Ok [].
Proof. reflexivity. Qed.

Example pad_example :
  _pad_data [x41] =
  [x41; x0f; x0f; x0f; x0f; x0f; x0f; x0f; x0f; x0f; x0f; x0f; x0f; x0f; x0f; x0f].
Proof. reflexivity. Qed.

Example split_example :
  str_split ":" "00ff:a1b2" = ["00ff"; "a1b2"]%string.
Proof. reflexivity. Qed.

Example split_three : unpack2 (str_split ":" "a:b:c") = Raise ValueError.
Proof. reflexivity. Qed.

Example fromhex_example : bytes_fromhex "00fF 10" = Ok [x00; xff; x10].
Proof. reflexivity. Qed.

Example fromhex_odd : bytes_fromhex "abc" = Raise ValueError.
Proof. reflexivity. Qed.

Example hex_example : bytes_hex [x00; xff; x1a] = "00ff1a"%string.
Proof. reflexivity. Qed.

(** ** Bytes and exclusive or *)

Lemma byte_val_range (b : byte) : 0 ≤ byte_val b < 256.
Proof. unfold byte_val. pose proof (Byte.to_N_bounded b). lia. Qed.

Lemma byte_of_Z_val (b : byte) : byte_of_Z (byte_val b) = b.
Proof.
  unfold byte_of_Z. rewrite Z.mod_small by apply byte_val_range.
  unfold byte_val. by rewrite N2Z.id, Byte.of_to_N.
Qed.

Lemma byte_val_of_Z (z : Z) : byte_val (byte_of_Z z) = z mod 256.
Proof.
  unfold byte_of_Z, byte_val.
  pose proof (Z.mod_pos_bound z 256 ltac:(lia)) as Hr.
  destruct (Byte.of_N (Z.to_N (z mod 256))) as [b|] eqn:E.
  - apply Byte.to_of_N in E. rewrite E. lia.
  - apply Byte.of_N_None_iff in E. lia.
Qed.

Lemma lxor_byte_range (a b : Z) :
  0 ≤ a < 256 → 0 ≤ b < 256 → 0 ≤ Z.lxor a b < 256.
Proof.
  intros Ha Hb. split.
  - apply Z.lxor_nonneg. lia.
  - destruct (Z.eq_dec (Z.lxor a b) 0) as [->|Hne]; [lia|].
    assert (0 < Z.lxor a b) as Hpos.
    { pose proof (proj2 (Z.lxor_nonneg a b) ltac:(lia)). lia. }
    change 256 with (2 ^ 8). apply Z.log2_lt_pow2; [done|].
    pose proof (Z.log2_lxor a b ltac:(lia) ltac:(lia)) as Hl.
    assert (Z.log2 a < 8) as Hla.
    { destruct (Z.eq_dec a 0) as [->|]; [done|].
      apply Z.log2_lt_pow2; lia. }
    assert (Z.log2 b < 8) as Hlb.
    { destruct (Z.eq_dec b 0) as [->|]; [done|].
      apply Z.log2_lt_pow2; lia. }
    lia.
Qed.

Lemma byte_xor_cancel (a b : byte) : byte_xor (byte_xor a b) b = a.
Proof.
  unfold byte_xor. rewrite byte_val_of_Z.
  pose proof (lxor_byte_range _ _ (byte_val_range a) (byte_val_range b)).
  rewrite Z.mod_small by done.
  rewrite Z.lxor_assoc, Z.lxor_nilpotent, Z.lxor_0_r.
  apply byte_of_Z_val.
Qed.

Lemma xor_bytes_cancel (p prev : bytes) :
  length p = length prev → xor_bytes (xor_bytes p prev) prev = p.
Proof.
  unfold xor_bytes. revert prev.
  induction p as [|a p IH]; intros [|b prev] Hlen; simpl in *; try done.
  rewrite byte_xor_cancel. f_equal. apply IH. lia.
Qed.

Lemma xor_bytes_length (p prev : bytes) :
  length p = length prev → length (xor_bytes p prev) = length p.
Proof. intros Hlen. unfold xor_bytes. rewrite length_zip_with. lia. Qed.

(** ** PKCS#7 padding *)

Lemma padding_size_range (n : Z) :
  1 ≤ block_size - n mod block_size ≤ 16.
Proof.
  unfold block_size. pose proof (Z.mod_pos_bound n 16 ltac:(lia)). lia.
Qed.

Lemma pad_data_length (data : bytes) :
  Z.of_nat (length (_pad_data data)) mod block_size = 0.
Proof.
  unfold _pad_data. rewrite length_app, length_replicate.
  pose proof (padding_size_range (Z.of_nat (length data))) as Hp.
  rewrite Nat2Z.inj_add, Z2Nat.id by lia. unfold block_size in *.
  set (n := Z.of_nat (length data)).
  rewrite (Z.div_mod n 16) at 1 by lia.
  replace (16 * (n / 16) + n mod 16 + (16 - n mod 16))
    with ((n / 16 + 1) * 16) by lia.
  apply Z.mod_mul. lia.
Qed.

(** Slicing [data[:-k]] on a non-empty [data] of length [n]: nothing is
    left when [k] is [0] (because [-0] is [0]) or when [k] reaches [n];
    otherwise the last [k] elements are dropped. *)
Lemma py_slice_to_neg {A} (k : Z) (l : list A) :
  0 ≤ k →
  py_slice_to (- k) l =
  if (k =? 0) || (Z.of_nat (length l) <=? k) then []
  else take (length l - Z.to_nat k) l.
Proof.
  intros Hk. unfold py_slice_to.
  destruct (k =? 0) eqn:E0; simpl.
  - apply Z.eqb_eq in E0. subst k. simpl.
    replace (Z.to_nat (Z.min (- 0) (Z.of_nat (length l)))) with 0%nat by lia.
    by rewrite take_0.
  - apply Z.eqb_neq in E0.
    destruct (- k <? 0) eqn:En; [|apply Z.ltb_ge in En; lia].
    destruct (Z.of_nat (length l) <=? k) eqn:Ele.
    + apply Z.leb_le in Ele.
      replace (Z.to_nat (Z.max 0 (Z.of_nat (length l) + - k))) with 0%nat by lia.
      by rewrite take_0.
    + apply Z.leb_gt in Ele. f_equal. lia.
Qed.

Lemma unpad_pad_data (data : bytes) : _unpad_data (_pad_data data) = Ok data.
Proof.
  unfold _unpad_data, _pad_data, py_last.
  pose proof (padding_size_range (Z.of_nat (length data))) as Hp.
  set (p := block_size - Z.of_nat (length data) mod block_size) in *.
  destruct (Z.to_nat p) as [|m] eqn:Em; [lia|].
  rewrite replicate_S_end, app_assoc, last_snoc. simpl.
  rewrite byte_val_of_Z, Z.mod_small by lia.
  unfold py_slice_to.
  destruct (- p <? 0) eqn:En; [|apply Z.ltb_ge in En; lia].
  rewrite !length_app, length_replicate. simpl.
  replace (Z.to_nat (Z.max 0 (Z.of_nat (length data + m + 1) + - p)))
    with (length data) by lia.
  by rewrite <- app_assoc, take_app_length.
Qed.

(** C10. For a non-empty byte string [d] whose final byte has value [k],
    [_unpad_data d] returns without raising: the result is empty when
    [k = 0] or [k >= len(d)], and otherwise [d] without its last [k]
    bytes. The only input on which [_unpad_data] raises is the empty byte
    string, where indexing [data[-1]] is an [IndexError]. *)
Theorem unpad_data_never_raises_on_nonempty (d : bytes) (final : byte) :
  last d = Some final →
  _unpad_data d =
    Ok (if (byte_val final =? 0) || (Z.of_nat (length d) <=? byte_val final)
        then []
        else take (length d - Z.to_nat (byte_val final)) d)
  ∧ (∀ d' e, _unpad_data d' = Raise e → d' = [] ∧ e = IndexError)
  ∧ _unpad_data [] = Raise IndexError.
Proof.
  intros Hlast. split; [|split].
  - unfold _unpad_data, py_last. rewrite Hlast. simpl.
    by rewrite py_slice_to_neg by apply byte_val_range.
  - intros d' e. unfold _unpad_data, py_last.
    destruct (last d') as [b|] eqn:E; simpl; [done|].
    apply last_None in E. by intros [= <-].
  - reflexivity.
Qed.

Lemma unpad_data_never_raises_on_nonempty_witness :
  last [x68; x65; x78; x02; x02] = Some x02
  ∧ _unpad_data [x68; x65; x78; x02; x02] = Ok [x68; x65; x78].
Proof.
  split; [reflexivity|].
  exact (proj1 (unpad_data_never_raises_on_nonempty
                  [x68; x65; x78; x02; x02] x02 eq_refl)).
Defined.

(** ** Cipher block chaining *)

Lemma chunks_fuel_exact (fuel : nat) (data : bytes) :
  (length data ≤ fuel)%nat →
  Z.of_nat (length data) mod 16 = 0 →
  Forall (λ b, length b = 16%nat) (chunks_fuel fuel 16 data)
  ∧ concat (chunks_fuel fuel 16 data) = data.
Proof.
  revert data. induction fuel as [|fuel IH]; intros data Hfuel Hmod.
  - destruct data; [by split|simpl in Hfuel; lia].
  - destruct data as [|x data']; [by split|].
    set (data := x :: data') in *.
    assert (16 ≤ length data)%nat as Hlen.
    { assert (0 < Z.of_nat (length data)) by (unfold data; simpl; lia).
      pose proof (Z.div_mod (Z.of_nat (length data)) 16 ltac:(lia)). lia. }
    change (chunks_fuel (S fuel) 16 data)
      with (take 16 data :: chunks_fuel fuel 16 (drop 16 data)).
    destruct (IH (drop 16 data)) as [Hall Hcat].
    + rewrite length_drop. lia.
    + rewrite length_drop.
      replace (Z.of_nat (length data - 16)) with (Z.of_nat (length data) + (-1) * 16) by lia.
      by rewrite Z.mod_add by lia.
    + split.
      * constructor; [|done]. rewrite length_take. lia.
      * rewrite concat_cons, Hcat. apply take_drop.
Qed.

Section CbcLaws.
Context {P : Platform} {L : PlatformLaws P}.

Lemma cbc_encrypt_blocks_length (key prev : bytes) (blocks : list bytes) :
  aes_key_size_ok key = true →
  Forall (λ b, length b = 16%nat) blocks →
  length prev = 16%nat →
  length (cbc_encrypt_blocks key prev blocks) = (16 * length blocks)%nat.
Proof.
  intros Hkey Hall. revert prev.
  induction Hall as [|p rest Hp _ IH]; intros prev Hprev; [done|].
  simpl. rewrite length_app.
  assert (length (aes_encrypt_block key (xor_bytes p prev)) = 16%nat) as Hc.
  { apply aes_encrypt_block_length; [done|]. rewrite xor_bytes_length; lia. }
  rewrite Hc, IH by done. lia.
Qed.

Lemma cbc_decrypt_encrypt_blocks (key : bytes) (blocks : list bytes) :
  aes_key_size_ok key = true →
  Forall (λ b, length b = 16%nat) blocks →
  ∀ (prev : bytes) (fuel : nat),
    length prev = 16%nat →
    (length (cbc_encrypt_blocks key prev blocks) ≤ fuel)%nat →
    cbc_decrypt_blocks key prev
      (chunks_fuel fuel 16 (cbc_encrypt_blocks key prev blocks))
    = concat blocks.
Proof.
  intros Hkey.
  induction 1 as [|p rest Hp Hrest IH]; intros prev fuel Hprev Hfuel.
  - by destruct fuel.
  - simpl in *.
    set (c := aes_encrypt_block key (xor_bytes p prev)) in *.
    assert (length c = 16%nat) as Hc.
    { apply aes_encrypt_block_length; [done|]. rewrite xor_bytes_length; lia. }
    rewrite length_app in Hfuel.
    destruct fuel as [|fuel]; [lia|].
    destruct (c ++ cbc_encrypt_blocks key c rest) as [|y ys] eqn:Hcat.
    { apply (f_equal length) in Hcat. rewrite length_app in Hcat. simpl in Hcat. lia. }
    rewrite <- Hcat.
    change (chunks_fuel (S fuel) 16 (c ++ cbc_encrypt_blocks key c rest))
      with (match c ++ cbc_encrypt_blocks key c rest with
            | [] => []
            | _ => take 16 (c ++ cbc_encrypt_blocks key c rest)
                   :: chunks_fuel fuel 16 (drop 16 (c ++ cbc_encrypt_blocks key c rest))
            end).
    rewrite Hcat at 1.
    rewrite take_app_length', drop_app_length' by done.
    simpl. fold c.
    rewrite IH by (done || lia).
    unfold c at 1.
    rewrite aes_decrypt_encrypt_block by (done || rewrite xor_bytes_length; lia).
    by rewrite xor_bytes_cancel by lia.
Qed.

Lemma decryptor_encryptor_run (c : Cipher_ctx) (data : bytes) :
  aes_key_size_ok (c_key c) = true →
  length (c_iv c) = 16%nat →
  Z.of_nat (length data) mod block_size = 0 →
  ∃ ct, encryptor_run c data = Ok ct ∧ decryptor_run c ct = Ok data.
Proof.
  intros Hkey Hiv Hmod. unfold encryptor_run, decryptor_run.
  rewrite Hmod. simpl. eexists. split; [done|].
  destruct (chunks_fuel_exact (length data) data ltac:(lia) Hmod) as [Hall Hcat].
  fold (chunks 16 data) in Hall, Hcat.
  rewrite cbc_encrypt_blocks_length by done.
  replace (Z.of_nat (16 * length (chunks 16 data)) mod block_size) with 0.
  2:{ rewrite Nat2Z.inj_mul, Z.mul_comm. unfold block_size.
      by rewrite Z.mod_mul by lia. }
  simpl. f_equal. unfold chunks at 1.
  rewrite cbc_decrypt_encrypt_blocks by (done || lia). done.
Qed.

End CbcLaws.

(** ** Running the methods *)

#[local] Arguments datetime_fromisoformat : simpl never.
#[local] Arguments license_expired : simpl never.
#[local] Arguments datetime_add : simpl never.
#[local] Arguments datetime_gt : simpl never.
#[local] Arguments _decrypt_aes : simpl never.
#[local] Arguments _encrypt_aes : simpl never.
#[local] Arguments bytes_fromhex : simpl never.
#[local] Arguments bytes_hex : simpl never.
#[local] Arguments str_split : simpl never.
#[local] Arguments truthy : simpl never.

Ltac unfold_methods :=
  cbv [validate_offline save_cache validate try_except bind ret raise lift
       get_self get_world modify_self modify_world os_path_exists
       read_cache_file write_cache_file os_chmod os_urandom utcnow
       urlopen_read _get_encryption_key].

(** The scrutinee that the next evaluation step of the goal depends on. *)
Ltac innermost x :=
  match x with
  | context [match ?z with _ => _ end] => innermost z
  | _ => x
  end.

(** One step of symbolic execution: case analysis on the next scrutinee,
    reusing an equation about it when one is already known. A value tested
    with [in] is split by its JSON type first. *)
Ltac case_step :=
  match goal with
  | |- context [py_contains _ ?v] => is_var v; destruct v; simpl
  | |- context [match ?x with _ => _ end] =>
      let y := innermost x in
      first [ match goal with H : y = _ |- _ => rewrite H end
            | destruct y eqn:? ]; simpl
  end.

Lemma unpack2_Ok {A} (xs : list A) (p : A * A) :
  unpack2 xs = Ok p → xs = [p.1; p.2].
Proof.
  destruct xs as [|a [|b [|? ?]]]; simpl; try done. by intros [= <-].
Qed.

Section MethodLemmas.
Context {P : Platform}.

(** Forward direction: a decrypted dict that passes every test is
    accepted, and the client is switched to offline mode. *)
Lemma validate_offline_accept (st : state) (d : gmap string json) :
  cache_decrypts_to st (JObj d) →
  offline_checks (w_now (world st)) d →
  validate_offline st =
    (Ok true, mk_state (offline_client d (self st)) (after_cache_read (world st))).
Proof.
  intros (data & ivh & ch & iv & ct & hw & text
          & Hf & Hs & Hiv & Hct & Hc & Hhw & Hdec & Hj)
         (vr & er & va & oe & Hv & He & Hva & Hoe & Hgt & Hexp).
  destruct st as [c w]. simpl in *.
  unfold_methods. unfold naive in *.
  repeat (progress (simpl;
    rewrite ?Hf, ?Hs, ?Hiv, ?Hct, ?Hc, ?Hhw, ?Hdec, ?Hj, ?Hv, ?He, ?Hva,
            ?Hoe, ?Hgt, ?Hexp, ?bool_decide_eq_true_2 by eauto)).
  done.
Qed.

Ltac offline_fail_path :=
  left; eexists; split; [reflexivity|]; simpl; split; [done|];
  ((by left) || (by right)).

(** Every run of [validate_offline] ends in one of two ways: it returns
    [False] with the client untouched and the cache file as it was, or the
    file decrypted to a dict that passed every test and it returns [True]
    with the client switched to that record. *)
Lemma validate_offline_cases (st : state) :
  (∃ w', validate_offline st = (Ok false, mk_state (self st) w')
         ∧ w_cache_file w' = w_cache_file (world st)
         ∧ (w' = log_event IoExists (world st) ∨ w' = after_cache_read (world st)))
  ∨ (∃ d, cache_decrypts_to st (JObj d)
          ∧ offline_checks (w_now (world st)) d
          ∧ validate_offline st =
              (Ok true, mk_state (offline_client d (self st))
                                 (after_cache_read (world st)))).
Proof.
  destruct st as [c w]. unfold_methods. simpl.
  repeat (case_step; try congruence; try offline_fail_path).
  right. exists d.
  repeat match goal with
         | H : negb _ = false |- _ => apply negb_false_iff in H
         | H : unpack2 _ = Ok ?p |- _ =>
             destruct p; apply unpack2_Ok in H; simpl in *
         | H : of_option _ ?o = Ok _ |- _ =>
             destruct o eqn:?; simpl in H; [injection H as ->|discriminate H]
         end.
  split; [|split].
  - unfold cache_decrypts_to. simpl. do 7 eexists. repeat split; eassumption.
  - unfold offline_checks, naive. do 4 eexists. repeat split; eassumption.
  - by destruct c.
Qed.

End MethodLemmas.

(** ** Timestamps *)

Lemma datetime_add_naive (t td : Z) :
  0 ≤ t + td ≤ DATETIME_MAX → datetime_add (naive t) td = Ok (naive (t + td)).
Proof.
  intros Hr. unfold datetime_add, naive. simpl.
  destruct (0 <=? t + td) eqn:E1; [|apply Z.leb_gt in E1; lia].
  destruct (t + td <=? DATETIME_MAX) eqn:E2; [done|apply Z.leb_gt in E2; lia].
Qed.

Lemma datetime_add_naive_inv (t td : Z) (r : datetime) :
  datetime_add (naive t) td = Ok r →
  r = naive (t + td) ∧ 0 ≤ t + td ≤ DATETIME_MAX.
Proof.
  unfold datetime_add, naive. simpl.
  destruct (0 <=? t + td) eqn:E1; simpl; [|done].
  destruct (t + td <=? DATETIME_MAX) eqn:E2; simpl; [|done].
  intros [= <-]. apply Z.leb_le in E1, E2. done.
Qed.

Lemma datetime_gt_naive (a b : Z) :
  datetime_gt (naive a) (naive b) = Ok (b <? a).
Proof. reflexivity. Qed.

Section OfflineLemmas.
Context {P : Platform}.

Lemma license_expired_value (now : Z) (x : json) (e : option Z) :
  expiry_value x e →
  license_expired (naive now) x =
    Ok (match e with Some t => t <? now | None => false end).
Proof.
  intros [[-> ->]|(s & t & -> & Hs & Hparse & ->)]; [done|].
  unfold license_expired, truthy.
  destruct (String.eqb s "") eqn:E; [by apply String.eqb_eq in E|].
  simpl. unfold datetime_fromisoformat. by rewrite Hparse.
Qed.

Lemma cache_decrypts_to_unique (st : state) (c1 c2 : json) :
  cache_decrypts_to st c1 → cache_decrypts_to st c2 → c1 = c2.
Proof.
  intros (data & ivh & ch & iv & ct & hw & text
          & Hf & Hs & Hiv & Hct & _ & Hhw & Hdec & Hj)
         (data' & ivh' & ch' & iv' & ct' & hw' & text'
          & Hf' & Hs' & Hiv' & Hct' & _ & Hhw' & Hdec' & Hj').
  rewrite Hf in Hf'. injection Hf' as <-.
  rewrite Hs in Hs'. injection Hs' as <- <-.
  rewrite Hiv in Hiv'. injection Hiv' as <-.
  rewrite Hct in Hct'. injection Hct' as <-.
  rewrite Hhw in Hhw'. injection Hhw' as <-.
  rewrite Hdec in Hdec'. injection Hdec' as <-.
  rewrite Hj in Hj'. by injection Hj'.
Qed.

(** Acceptance is exactly the conjunction of the tests. *)
Lemma validate_offline_true_iff (st : state) (d : gmap string json) :
  cache_decrypts_to st (JObj d) →
  (validate_offline st).1 = Ok true ↔ offline_checks (w_now (world st)) d.
Proof.
  intros Hdec. split.
  - intros Hr. destruct (validate_offline_cases st) as
      [(w' & Hrun & _)|(d' & Hdec' & Hchecks & _)].
    + rewrite Hrun in Hr. done.
    + pose proof (cache_decrypts_to_unique _ _ _ Hdec Hdec') as [= ->]. done.
  - intros Hchecks. by rewrite (validate_offline_accept st d).
Qed.

Lemma validate_offline_result (st : state) :
  (validate_offline st).1 = Ok true ∨ (validate_offline st).1 = Ok false.
Proof.
  destruct (validate_offline_cases st) as [(w' & -> & _)|(d & _ & _ & ->)];
    [by right|by left].
Qed.

End OfflineLemmas.

(** ** Offline validation *)

(** A decrypted record without the [expiresAt] key never passes. *)
Lemma offline_checks_need_expiry_key {P : Platform} (now : Z) (d : gmap string json) :
  d !! "expiresAt" = None → ¬ offline_checks now d.
Proof. intros Hnone (vr & er & va & oe & _ & He & _). congruence. Qed.

(** For a record with a naive [validatedAt], the tests amount to the
    presence of [expiresAt], the grace-period comparison and the expiry
    comparison. *)
Lemma offline_checks_naive {P : Platform} (now : Z) (d : gmap string json)
    (vs : string) (va : Z) (x : json) :
  d !! "validatedAt" = Some (JStr vs) →
  fromisoformat vs = Ok (naive va) →
  d !! "expiresAt" = Some x →
  offline_checks now d ↔
    0 ≤ va + timedelta_days OFFLINE_GRACE_DAYS ≤ DATETIME_MAX
    ∧ now ≤ va + timedelta_days OFFLINE_GRACE_DAYS
    ∧ license_expired (naive now) x = Ok false.
Proof.
  intros Hv Hparse He. split.
  - intros (vr & er & va' & oe & Hv' & He' & Hva & Hoe & Hgt & Hexp).
    rewrite Hv in Hv'. injection Hv' as <-.
    rewrite He in He'. injection He' as <-.
    unfold datetime_fromisoformat in Hva. rewrite Hparse in Hva.
    injection Hva as <-.
    apply datetime_add_naive_inv in Hoe as [-> Hrange].
    rewrite datetime_gt_naive in Hgt. injection Hgt as Hgt.
    apply Z.ltb_ge in Hgt. done.
  - intros (Hrange & Hgrace & Hexp).
    exists (JStr vs), x, (naive va), (naive (va + timedelta_days OFFLINE_GRACE_DAYS)).
    repeat split; try done.
    + by apply datetime_add_naive.
    + rewrite datetime_gt_naive. f_equal. apply Z.ltb_ge. done.
Qed.

(** C1, in the form that holds of the code. Let the cache file decrypt
    to a record whose [validatedAt] is a naive ISO timestamp to which the
    grace period can be added, and whose [expiresAt], if the key is
    there, is [null] or a naive ISO timestamp. Then [validate_offline] accepts exactly when the
    record carries the [expiresAt] key and both conditions hold:
    [now - validatedAt <= OFFLINE_GRACE_DAYS], and [expiresAt] is [null]
    or [now <= expiresAt]. Otherwise it returns [False]; in particular a
    record without the [expiresAt] key is rejected whatever its age. *)
Theorem offline_acceptance_rule {P : Platform} (st : state)
    (d : gmap string json) (vs : string) (va : Z) :
  cache_decrypts_to st (JObj d) →
  d !! "validatedAt" = Some (JStr vs) →
  fromisoformat vs = Ok (naive va) →
  0 ≤ va + timedelta_days OFFLINE_GRACE_DAYS ≤ DATETIME_MAX →
  (∀ x, d !! "expiresAt" = Some x → ∃ e, expiry_value x e) →
  ((validate_offline st).1 = Ok true ↔
     ∃ x e, d !! "expiresAt" = Some x ∧ expiry_value x e
            ∧ spec_offline_acceptance (w_now (world st)) va e)
  ∧ ((validate_offline st).1 = Ok true ∨ (validate_offline st).1 = Ok false)
  ∧ (d !! "expiresAt" = None → (validate_offline st).1 = Ok false).
Proof.
  intros Hdec Hv Hparse Hrange Htyped.
  assert ((validate_offline st).1 = Ok true ↔
          ∃ x e, d !! "expiresAt" = Some x ∧ expiry_value x e
                 ∧ spec_offline_acceptance (w_now (world st)) va e) as Hiff.
  { rewrite (validate_offline_true_iff st d Hdec). split.
    - intros Hchecks.
      destruct (d !! "expiresAt") as [x|] eqn:He;
        [|by destruct (offline_checks_need_expiry_key _ d He Hchecks)].
      destruct (Htyped x eq_refl) as [e Hval].
      apply (offline_checks_naive _ d vs va x Hv Hparse He) in Hchecks
        as (_ & Hgrace & Hexp).
      rewrite (license_expired_value _ x e Hval) in Hexp.
      exists x, e. repeat split; try done; [lia|].
      destruct e as [t|]; [right|by left].
      injection Hexp as Hexp. apply Z.ltb_ge in Hexp. eauto.
    - intros (x & e & He & Hval & Hgrace & Hexp).
      apply (offline_checks_naive _ d vs va x Hv Hparse He).
      repeat split; try lia.
      rewrite (license_expired_value _ x e Hval). f_equal.
      destruct Hexp as [->|(t & -> & Hle)]; [done|]. by apply Z.ltb_ge. }
  split; [done|]. split; [apply validate_offline_result|].
  intros Hnone. destruct (validate_offline_result st) as [Htrue|Hfalse]; [|done].
  apply Hiff in Htrue as (x & e & He & _). congruence.
Qed.

Lemma null_expiry_file_decrypts (now : Z) :
  @cache_decrypts_to TestHost.host
    (mk_state Scenario.client
              (Scenario.offline_world now Scenario.file_null_expiry))
    (JObj Scenario.record_null_expiry).
Proof.
  unfold cache_decrypts_to. simpl.
  eexists _, _, _, _, _, _, _.
  split; [reflexivity|].
  do 3 (split; [vm_compute; reflexivity|]).
  split; [reflexivity|].
  do 2 (split; [vm_compute; reflexivity|]).
  vm_compute. reflexivity.
Qed.

Lemma file_without_expiry_key_decrypts (now : Z) :
  @cache_decrypts_to TestHost.host
    (mk_state Scenario.client
              (Scenario.offline_world now Scenario.file_without_expiry_key))
    (JObj Scenario.record_without_expiry_key).
Proof.
  unfold cache_decrypts_to. simpl.
  eexists _, _, _, _, _, _, _.
  split; [reflexivity|].
  do 3 (split; [vm_compute; reflexivity|]).
  split; [reflexivity|].
  do 2 (split; [vm_compute; reflexivity|]).
  vm_compute. reflexivity.
Qed.

Lemma offline_acceptance_rule_witness :
  cache_decrypts_to (P := TestHost.host)
    (mk_state Scenario.client
       (Scenario.offline_world Scenario.t_three_days_later Scenario.file_null_expiry))
    (JObj Scenario.record_null_expiry)
  ∧ (validate_offline (P := TestHost.host)
       (mk_state Scenario.client
          (Scenario.offline_world Scenario.t_three_days_later
                                  Scenario.file_null_expiry))).1 = Ok true.
Proof.
  split; [apply null_expiry_file_decrypts|].
  assert (Scenario.record_null_expiry !! "expiresAt" = Some JNull) as He
    by (vm_compute; reflexivity).
  apply (proj1 (offline_acceptance_rule (P := TestHost.host) _
                  Scenario.record_null_expiry "2024-01-08T12:30:05"
                  Scenario.t_validated
                  (null_expiry_file_decrypts _)
                  ltac:(vm_compute; reflexivity)
                  ltac:(vm_compute; reflexivity)
                  ltac:(vm_compute; split; discriminate)
                  ltac:(intros x Hx; rewrite He in Hx; injection Hx as <-;
                        exists None; left; done))).
  exists JNull, None. split; [exact He|]. split; [by left|].
  split; [vm_compute; discriminate|by left].
Defined.

(** C1, as stated, fails: three days after [validatedAt], a decrypted
    record that has no [expiresAt] key satisfies the stated condition
    (within the grace period, [expiresAt] absent), and [validate_offline]
    rejects it. *)
Lemma offline_rejects_record_without_expiry_key :
  cache_decrypts_to (P := TestHost.host)
    (mk_state Scenario.client
       (Scenario.offline_world Scenario.t_three_days_later
                               Scenario.file_without_expiry_key))
    (JObj Scenario.record_without_expiry_key)
  ∧ Scenario.record_without_expiry_key !! "validatedAt"
    = Some (JStr "2024-01-08T12:30:05")
  ∧ fromisoformat (Platform := TestHost.host) "2024-01-08T12:30:05"
    = Ok (naive Scenario.t_validated)
  ∧ Scenario.record_without_expiry_key !! "expiresAt" = None
  ∧ spec_offline_acceptance Scenario.t_three_days_later Scenario.t_validated None
  ∧ (validate_offline (P := TestHost.host)
       (mk_state Scenario.client
          (Scenario.offline_world Scenario.t_three_days_later
                                  Scenario.file_without_expiry_key))).1 = Ok false.
Proof.
  split; [apply file_without_expiry_key_decrypts|].
  do 3 (split; [vm_compute; reflexivity|]).
  split; [split; [vm_compute; discriminate|by left]|].
  vm_compute. reflexivity.
Qed.

(** C3. Grace-period boundary. A decrypted record whose naive
    [validatedAt] lies 7 days and 1 second before [now] is rejected. When
    the expiry test passes (and the end of the grace period is a
    representable date), a record validated 6 days 23 hours before [now]
    is accepted, and rejection happens exactly when
    [now > validatedAt + 7 days], a strict inequality. *)
Theorem grace_period_boundary {P : Platform} (st : state)
    (d : gmap string json) (vs : string) (va : Z) :
  cache_decrypts_to st (JObj d) →
  d !! "validatedAt" = Some (JStr vs) →
  fromisoformat vs = Ok (naive va) →
  (va = w_now (world st) - (7 * MICROS_PER_DAY + MICROS_PER_SECOND) →
   (validate_offline st).1 = Ok false)
  ∧ (∀ x, d !! "expiresAt" = Some x →
          license_expired (naive (w_now (world st))) x = Ok false →
          0 ≤ va + timedelta_days OFFLINE_GRACE_DAYS ≤ DATETIME_MAX →
          (va = w_now (world st) - (6 * MICROS_PER_DAY + 23 * MICROS_PER_HOUR) →
           (validate_offline st).1 = Ok true)
          ∧ ((validate_offline st).1 = Ok false ↔
             w_now (world st) > va + 7 * MICROS_PER_DAY)).
Proof.
  intros Hdec Hv Hparse. split.
  - intros Hva. destruct (validate_offline_result st) as [Htrue|Hfalse]; [|done].
    apply (validate_offline_true_iff st d Hdec) in Htrue.
    pose proof Htrue as (vr & er & _ & _ & _ & He & _).
    apply (offline_checks_naive _ d vs va er Hv Hparse He) in Htrue
      as (_ & Hgrace & _).
    unfold timedelta_days, OFFLINE_GRACE_DAYS, MICROS_PER_DAY,
      MICROS_PER_SECOND in *. lia.
  - intros x He Hexp Hrange.
    pose proof (offline_checks_naive (w_now (world st)) d vs va x Hv Hparse He)
      as Hchecks.
    pose proof (validate_offline_true_iff st d Hdec) as Htrue.
    unfold timedelta_days, OFFLINE_GRACE_DAYS in *.
    split.
    + intros Hva. apply Htrue, Hchecks. repeat split; try done; try lia.
      unfold MICROS_PER_DAY, MICROS_PER_HOUR in *. lia.
    + split.
      * intros Hfalse.
        destruct (Z_lt_le_dec (va + 7 * MICROS_PER_DAY) (w_now (world st)))
          as [Hlt|Hle]; [lia|].
        assert ((validate_offline st).1 = Ok true) as Hacc.
        { apply Htrue, Hchecks. repeat split; try done; lia. }
        congruence.
      * intros Hgt. destruct (validate_offline_result st) as [Hacc|Hrej]; [|done].
        apply Htrue, Hchecks in Hacc as (_ & Hgrace & _). lia.
Qed.

Lemma grace_period_boundary_witness :
  (validate_offline (P := TestHost.host)
     (mk_state Scenario.client
        (Scenario.offline_world Scenario.t_seven_days_1s_later
                                Scenario.file_null_expiry))).1 = Ok false
  ∧ (validate_offline (P := TestHost.host)
       (mk_state Scenario.client
          (Scenario.offline_world Scenario.t_six_days_23h_later
                                  Scenario.file_null_expiry))).1 = Ok true.
Proof.
  split.
  - apply (proj1 (grace_period_boundary (P := TestHost.host) _
                    Scenario.record_null_expiry "2024-01-08T12:30:05"
                    Scenario.t_validated
                    (null_expiry_file_decrypts _)
                    ltac:(vm_compute; reflexivity)
                    ltac:(vm_compute; reflexivity))).
    vm_compute. reflexivity.
  - apply (proj2 (grace_period_boundary (P := TestHost.host) _
                    Scenario.record_null_expiry "2024-01-08T12:30:05"
                    Scenario.t_validated
                    (null_expiry_file_decrypts _)
                    ltac:(vm_compute; reflexivity)
                    ltac:(vm_compute; reflexivity))
                 JNull
                 ltac:(vm_compute; reflexivity)
                 ltac:(vm_compute; reflexivity)
                 ltac:(vm_compute; split; discriminate)).
    vm_compute. reflexivity.
Defined.

(** C9. [validate_offline] changes the client only when it succeeds. On
    every run that returns [False] (no file, unreadable or malformed file,
    no crypto backend, failed decryption or parse, missing keys, grace
    period over, license expired, any exception) [license_info] and
    [offline_mode] are what they were. A run that returns [True] has
    decrypted a record that passed every test; it sets [license_info] to
    that record with [offlineMode] set to [True], and [offline_mode] to
    [True]. No run raises. *)
Theorem validate_offline_mutates_only_on_success {P : Platform} (st : state) :
  ((validate_offline st).1 = Ok false
   ∧ license_info (self (validate_offline st).2) = license_info (self st)
   ∧ offline_mode (self (validate_offline st).2) = offline_mode (self st))
  ∨ (∃ d, cache_decrypts_to st (JObj d)
          ∧ offline_checks (w_now (world st)) d
          ∧ (validate_offline st).1 = Ok true
          ∧ license_info (self (validate_offline st).2)
            = Some (JObj (<["offlineMode" := JBool true]> d))
          ∧ offline_mode (self (validate_offline st).2) = true).
Proof.
  destruct (validate_offline_cases st) as
    [(w' & Hrun & _)|(d & Hdec & Hchecks & Hrun)]; rewrite Hrun.
  - by left.
  - right. exists d. by repeat split.
Qed.

(** ** The encryption round trip *)

Lemma byte_xor_cancel_l (k b : byte) : byte_xor k (byte_xor k b) = b.
Proof.
  unfold byte_xor. rewrite byte_val_of_Z.
  pose proof (lxor_byte_range _ _ (byte_val_range k) (byte_val_range b)).
  rewrite Z.mod_small by done.
  rewrite <- Z.lxor_assoc, Z.lxor_nilpotent, Z.lxor_0_l.
  apply byte_of_Z_val.
Qed.

(** The test host satisfies the laws. *)
Lemma host_laws : PlatformLaws TestHost.host.
Proof.
  split; simpl.
  - intros key blk _ Hlen. by rewrite length_map.
  - intros key blk _ _. rewrite map_map. rewrite <- (map_id blk) at 2.
    apply map_ext. intros b. apply byte_xor_cancel_l.
  - intros s b. unfold TestHost.encode_ascii, TestHost.decode_ascii.
    destruct (forallb TestHost.is_ascii_byte (list_byte_of_string s)) eqn:E;
      [|done].
    intros [= <-]. rewrite E. by rewrite string_of_list_byte_of_string.
Qed.

(** C4. Encryption round trip. On a backend whose block cipher and UTF-8
    codec are inverse pairs, for every payload that has an encoding (as
    every [json.dumps] output has), every 32-byte key and every 16-byte
    IV: [_encrypt_aes] returns a ciphertext and [_decrypt_aes] of that
    ciphertext under the same key and IV returns the payload. The padding
    [_pad_data] adds is what [_unpad_data] removes. *)
Theorem encrypt_decrypt_roundtrip {P : Platform} (L : PlatformLaws P)
    (payload : string) (key iv encoded : bytes) :
  length key = 32%nat →
  length iv = 16%nat →
  str_encode payload = Ok encoded →
  (∃ ciphertext,
      _encrypt_aes payload key iv = Ok ciphertext
      ∧ _decrypt_aes ciphertext key iv = Ok payload)
  ∧ _unpad_data (_pad_data encoded) = Ok encoded.
Proof.
  intros Hkey Hiv Henc. split; [|apply unpad_pad_data].
  assert (aes_key_size_ok key = true) as Hsize
    by (unfold aes_key_size_ok; by rewrite Hkey).
  unfold _encrypt_aes, _decrypt_aes, Cipher.
  rewrite Hsize, Hiv, Henc. simpl.
  destruct (decryptor_encryptor_run (mk_cipher key iv) (_pad_data encoded))
    as (ct & Hrun & Hback); [done|done|apply pad_data_length|].
  exists ct. rewrite Hrun. split; [done|].
  simpl. rewrite Hback. simpl. rewrite unpad_pad_data. simpl.
  by apply bytes_decode_encode.
Qed.

Lemma encrypt_decrypt_roundtrip_witness :
  length Sample.key = 32%nat
  ∧ length Sample.iv = 16%nat
  ∧ ∃ ciphertext,
      _encrypt_aes (P := TestHost.host) Sample.payload Sample.key Sample.iv
      = Ok ciphertext
      ∧ _decrypt_aes (P := TestHost.host) ciphertext Sample.key Sample.iv
        = Ok Sample.payload.
Proof.
  split; [reflexivity|]. split; [reflexivity|].
  exact (proj1 (encrypt_decrypt_roundtrip (P := TestHost.host) host_laws
                  Sample.payload Sample.key Sample.iv
                  (list_byte_of_string Sample.payload)
                  eq_refl eq_refl ltac:(vm_compute; reflexivity))).
Defined.

(** ** [save_cache] *)

Section SaveCache.
Context {P : Platform}.

(** Every run of [save_cache] either returns [False] leaving the whole
    state as it was, or starts from a dict with a true [valid] on a host
    with a crypto backend; the client itself is never changed. *)
Lemma save_cache_cases (st : state) :
  save_cache st = (Ok false, st)
  ∨ (∃ d b w',
        license_info (self st) = Some (JObj d)
        ∧ truthy (default JNull (d !! "valid")) = true
        ∧ HAS_CRYPTO = true
        ∧ save_cache st = (Ok b, mk_state (self st) w')).
Proof.
  destruct st as [c w]. unfold_methods. simpl.
  destruct (license_info c) as [[| | | | | |d]|] eqn:Hinfo; simpl;
    try (by left);
    repeat (case_step; try congruence; try (by left)).
  all: right; exists d; eexists _, _;
    (split; [done|]); (split; [by apply negb_false_iff|]);
    (split; [by apply negb_false_iff|]); reflexivity.
Qed.

Lemma save_cache_total (st : state) :
  ∃ b st', save_cache st = (Ok b, st').
Proof.
  destruct (save_cache_cases st) as [->|(d & b & w' & _ & _ & _ & ->)]; eauto.
Qed.

End SaveCache.

(** C6. [save_cache] called while [license_info] is [None], or is a
    record whose [valid] is false, returns [False] and leaves the world
    (the cache file and the log of file operations) exactly as it was.
    Whenever a call touches the world, [license_info] is a record whose
    [valid] is true. *)
Theorem save_cache_only_for_valid_record {P : Platform} (st : state) :
  (license_info (self st) = None
   ∨ (∃ d, license_info (self st) = Some (JObj d)
           ∧ truthy (default JNull (d !! "valid")) = false) →
   save_cache st = (Ok false, st))
  ∧ (world (save_cache st).2 ≠ world st →
     ∃ d, license_info (self st) = Some (JObj d)
          ∧ truthy (default JNull (d !! "valid")) = true).
Proof.
  split.
  - intros Hmissing.
    destruct (save_cache_cases st) as [Hrun|(d & b & w' & Hinfo & Hvalid & _)];
      [done|].
    destruct Hmissing as [Hnone|(d' & Hinfo' & Hvalid')]; [congruence|].
    rewrite Hinfo in Hinfo'. injection Hinfo' as <-. congruence.
  - intros Hchanged.
    destruct (save_cache_cases st) as [Hrun|(d & b & w' & Hinfo & Hvalid & _)].
    + rewrite Hrun in Hchanged. done.
    + eauto.
Qed.

Lemma save_cache_only_for_valid_record_witness :
  license_info ScenarioOnline.rejected_client
  = Some (invalid_record (JStr "License revoked"))
  ∧ save_cache (P := TestHost.host)
      (mk_state ScenarioOnline.rejected_client
         (Scenario.offline_world Scenario.t_validated Scenario.file_null_expiry))
    = (Ok false,
       mk_state ScenarioOnline.rejected_client
         (Scenario.offline_world Scenario.t_validated Scenario.file_null_expiry)).
Proof.
  split; [reflexivity|].
  apply (proj1 (save_cache_only_for_valid_record (P := TestHost.host) _)).
  right. eexists. split; [reflexivity|]. vm_compute. reflexivity.
Defined.

(** ** The capability gate *)

(** C8. Without a crypto backend ([HAS_CRYPTO] false), [save_cache]
    returns [False] and leaves the whole state, cache file included, as
    it was; [validate_offline] returns [False] whatever the cache file
    holds, without changing the client or the file. Both return; neither
    raises. *)
Theorem no_crypto_disables_cache {P : Platform} (st : state) :
  HAS_CRYPTO = false →
  save_cache st = (Ok false, st)
  ∧ ∃ w', validate_offline st = (Ok false, mk_state (self st) w')
          ∧ w_cache_file w' = w_cache_file (world st).
Proof.
  intros Hno. split.
  - destruct (save_cache_cases st) as [Hrun|(d & b & w' & _ & _ & Hyes & _)];
      [done|congruence].
  - destruct (validate_offline_cases st) as
      [(w' & Hrun & Hfile & _)|(d & Hdec & _)]; [eauto|].
    destruct Hdec as (? & ? & ? & ? & ? & ? & ? & _ & _ & _ & _ & Hyes & _).
    congruence.
Qed.

Lemma no_crypto_disables_cache_witness :
  HAS_CRYPTO (Platform := TestHost.host_without_crypto) = false
  ∧ (validate_offline (P := TestHost.host_without_crypto)
       (mk_state Scenario.client
          (Scenario.offline_world Scenario.t_three_days_later
                                  Scenario.file_null_expiry))).1 = Ok false.
Proof.
  split; [reflexivity|].
  destruct (proj2 (no_crypto_disables_cache (P := TestHost.host_without_crypto)
                     (mk_state Scenario.client
                        (Scenario.offline_world Scenario.t_three_days_later
                                                Scenario.file_null_expiry))
                     eq_refl)) as (w' & Hrun & _).
  rewrite Hrun. reflexivity.
Defined.

(** ** [validate] *)

Lemma try_except_total {A} (body : M A) (handler : exn → M A) :
  (∀ e st, ∃ a st', handler e st = (Ok a, st')) →
  ∀ st, ∃ a st', try_except body handler st = (Ok a, st').
Proof.
  intros Hhandler st. unfold try_except.
  destruct (body st) as [[a|e] st']; eauto.
Qed.

Lemma bind_get_self {A} (k : LicenseClient → M A) (st : state) :
  bind get_self k st = k (self st) st.
Proof. reflexivity. Qed.

Lemma validate_offline_total {P : Platform} (st : state) :
  ∃ b st', validate_offline st = (Ok b, st').
Proof. apply try_except_total. intros e st'. by eexists _, _. Qed.

(** C2. For every client and every world (license key present or not,
    any answer or failure of the server, any cache file) [validate]
    returns a boolean; it never raises. *)
Theorem validate_never_raises {P : Platform} (st : state) :
  ∃ (b : bool) (st' : state), validate st = (Ok b, st').
Proof.
  unfold validate. rewrite bind_get_self.
  destruct (key_missing (license_key (self st))); [by eexists _, _|].
  apply try_except_total. intros e st1.
  destruct (validate_offline_total st1) as (ok & st2 & Hrun).
  unfold bind. rewrite Hrun. destruct ok; by eexists _, _.
Qed.

(** C7. With no license key ([None] or the empty string) [validate]
    returns [False] at once; the whole state is as before: no request was
    sent, and the cache file was neither looked at nor written. *)
Theorem validate_without_key {P : Platform} (st : state) :
  license_key (self st) = None ∨ license_key (self st) = Some EmptyString →
  validate st = (Ok false, st).
Proof.
  intros Hkey. unfold validate, bind, get_self, ret.
  by destruct Hkey as [-> | ->].
Qed.

Lemma validate_without_key_witness :
  license_key Scenario.client_without_key = None
  ∧ validate (P := TestHost.host)
      (mk_state Scenario.client_without_key
         (Scenario.offline_world Scenario.t_three_days_later
                                 Scenario.file_null_expiry))
    = (Ok false,
       mk_state Scenario.client_without_key
         (Scenario.offline_world Scenario.t_three_days_later
                                 Scenario.file_null_expiry)).
Proof.
  split; [reflexivity|].
  apply (validate_without_key (P := TestHost.host)). by left.
Defined.

(** C5. A rejection by the server can be masked by the cache. The
    server answers with the JSON object [{valid: false, error: message}]
    whose message is a lone surrogate, three days after a cache without
    expiry was written for this machine. [validate] stores the rejection and then prints the
    message inside its [try]; the line has no encoding, the [print]
    raises, and the handler runs [validate_offline]. The cache file is
    tested for existence and read, the cached record is accepted, and
    [validate] returns [True] with the client in offline mode: the stale
    cache masks the server's rejection. *)
Theorem server_rejection_masked_by_cache :
  w_server (world SurrogateHost.rejection_state)
    = Ok (list_byte_of_string SurrogateHost.rejection_body)
  ∧ json_loads (Platform := SurrogateHost.host) SurrogateHost.rejection_body
    = Ok (JObj SurrogateHost.rejection)
  ∧ truthy (default JNull (SurrogateHost.rejection !! "valid")) = false
  ∧ str_encode (Platform := SurrogateHost.host)
      ("License validation failed: " ++ SurrogateHost.surrogate)%string
    = Raise UnicodeEncodeError
  ∧ (validate (P := SurrogateHost.host) SurrogateHost.rejection_state).1
    = Ok true
  ∧ offline_mode
      (self (validate (P := SurrogateHost.host) SurrogateHost.rejection_state).2)
    = true
  ∧ license_info
      (self (validate (P := SurrogateHost.host) SurrogateHost.rejection_state).2)
    = Some (JObj (<["offlineMode" := JBool true]> Scenario.record_null_expiry))
  ∧ w_log
      (world (validate (P := SurrogateHost.host) SurrogateHost.rejection_state).2)
    = [IoRead; IoExists;
       IoRequest "https://api.hexrift.net/api/verify"
         (list_byte_of_string
            (json_dumps (Platform := SurrogateHost.host)
               (request_data (P := SurrogateHost.host) Scenario.client)))].
Proof. repeat split; by vm_compute. Qed.

(** ** The specification's end-to-end scenarios on the test host *)

Example scenario_timestamps :
  fromisoformat (Platform := TestHost.host) "2024-01-08T12:30:05"
  = Ok (naive Scenario.t_validated)
  ∧ fromisoformat (Platform := TestHost.host) "2024-01-11T12:30:05"
    = Ok (naive Scenario.t_three_days_later)
  ∧ Scenario.t_six_days_23h_later
    = Scenario.t_validated + 6 * MICROS_PER_DAY + 23 * MICROS_PER_HOUR
  ∧ Scenario.t_seven_days_1s_later
    = Scenario.t_validated + 7 * MICROS_PER_DAY + MICROS_PER_SECOND
  ∧ isoformat (Platform := TestHost.host) (naive Scenario.t_validated)
    = "2024-01-08T12:30:05"%string.
Proof. vm_compute. by repeat split. Qed.

(** The server accepts the license: [validate] returns [True] and the
    cache file exists afterwards. Three days later the server cannot be
    reached: [validate] falls back to that file, returns [True], and the
    client is in offline mode. *)
Example scenario_online_then_offline :
  let online :=
    validate (P := TestHost.host)
      (mk_state Scenario.client
         (Scenario.online_world Scenario.t_validated
            "valid=true;owner='Acme;expiresAt=null" NoFile)) in
  let offline :=
    validate (P := TestHost.host)
      (mk_state Scenario.client
         (Scenario.offline_world Scenario.t_three_days_later
            (w_cache_file (world online.2)))) in
  online.1 = Ok true
  ∧ w_cache_file (world online.2) ≠ NoFile
  ∧ offline.1 = Ok true
  ∧ offline_mode (self offline.2) = true.
Proof. vm_compute. by repeat split. Qed.

(** The server cannot be reached and there is no cache file: [validate]
    returns [False]. *)
Example scenario_offline_without_cache :
  (validate (P := TestHost.host)
     (mk_state Scenario.client
        (Scenario.offline_world Scenario.t_three_days_later NoFile))).1
  = Ok false.
Proof. vm_compute. reflexivity. Qed.

(** A cache written for another machine (another [hwid]) does not
    validate. *)
Example scenario_other_machine :
  (validate_offline (P := TestHost.host)
     (mk_state
        (mk_client "https://api.hexrift.net/api" "Hex-Status-2.0" "2.0.0"
                   (Some "HEX-0000-1111") "cd34" None false)
        (Scenario.offline_world Scenario.t_three_days_later
                                Scenario.file_null_expiry))).1
  = Ok false.
Proof. vm_compute. reflexivity. Qed.

(** * Further properties *)

(** ** The cache text *)

Lemma hex_char_facts (n : Z) :
  0 ≤ n < 16 →
  hex_digit (hex_char n) = Some n
  ∧ is_space (hex_char n) = false
  ∧ Ascii.eqb (hex_char n) ":" = false.
Proof.
  intros Hn.
  assert (n = 0 ∨ n = 1 ∨ n = 2 ∨ n = 3 ∨ n = 4 ∨ n = 5 ∨ n = 6 ∨ n = 7
          ∨ n = 8 ∨ n = 9 ∨ n = 10 ∨ n = 11 ∨ n = 12 ∨ n = 13 ∨ n = 14
          ∨ n = 15) as Hcases by lia.
  repeat (destruct Hcases as [->|Hcases]; [by vm_compute|]).
  subst n. by vm_compute.
Qed.

Lemma bytes_hex_cons (x : byte) (rest : bytes) :
  bytes_hex (x :: rest) =
  String (hex_char (byte_val x / 16))
    (String (hex_char (byte_val x mod 16)) (bytes_hex rest)).
Proof. reflexivity. Qed.

Lemma byte_nibbles (x : byte) :
  0 ≤ byte_val x / 16 < 16 ∧ 0 ≤ byte_val x mod 16 < 16.
Proof.
  pose proof (byte_val_range x) as Hr. split.
  - split; [apply Z.div_pos; lia|apply Z.div_lt_upper_bound; lia].
  - apply Z.mod_pos_bound. lia.
Qed.

(** [bytes.fromhex] undoes [bytes.hex]. *)
Lemma fromhex_hex (b : bytes) : bytes_fromhex (bytes_hex b) = Ok b.
Proof.
  unfold bytes_fromhex.
  assert (fromhex_opt (bytes_hex b) = Some b) as ->; [|done].
  induction b as [|x rest IH]; [done|].
  rewrite bytes_hex_cons.
  destruct (byte_nibbles x) as [Hhi Hlo].
  destruct (hex_char_facts _ Hhi) as (Hd1 & Hs1 & _).
  destruct (hex_char_facts _ Hlo) as (Hd2 & _ & _).
  cbn [fromhex_opt]. rewrite Hs1, Hd1, Hd2, IH. simpl. f_equal. f_equal.
  rewrite <- Z.div_mod by lia. apply byte_of_Z_val.
Qed.

Lemma str_split_String (sep c : ascii) (s : string) :
  str_split sep (String c s) =
  if Ascii.eqb c sep then EmptyString :: str_split sep s
  else match str_split sep s with
       | h :: t => String c h :: t
       | [] => [String c EmptyString]
       end.
Proof. reflexivity. Qed.

Lemma str_split_cons_other (sep c : ascii) (s : string) :
  Ascii.eqb c sep = false →
  str_split sep (String c s) =
  match str_split sep s with
  | h :: t => String c h :: t
  | [] => [String c EmptyString]
  end.
Proof. intros H. by rewrite str_split_String, H. Qed.

Lemma str_split_hex_only (b : bytes) :
  str_split ":" (bytes_hex b) = [bytes_hex b].
Proof.
  induction b as [|x rest IH]; [done|].
  rewrite bytes_hex_cons.
  destruct (byte_nibbles x) as [Hhi Hlo].
  destruct (hex_char_facts _ Hhi) as (_ & _ & Hc1).
  destruct (hex_char_facts _ Hlo) as (_ & _ & Hc2).
  rewrite (str_split_cons_other _ _ _ Hc1), (str_split_cons_other _ _ _ Hc2).
  by rewrite IH.
Qed.

(** The text [save_cache] writes splits at its colon into the two hex
    strings. *)
Lemma str_split_cache_text (iv ct : bytes) :
  str_split ":" (cache_text iv ct) = [bytes_hex iv; bytes_hex ct].
Proof.
  unfold cache_text. induction iv as [|x rest IH].
  - change (bytes_hex []) with EmptyString. 
    change (str_split ":" ("" ++ ":" ++ bytes_hex ct)%string)
      with (EmptyString :: str_split ":" (bytes_hex ct)).
    by rewrite str_split_hex_only.
  - rewrite bytes_hex_cons.
    destruct (byte_nibbles x) as [Hhi Hlo].
    destruct (hex_char_facts _ Hhi) as (_ & _ & Hc1).
    destruct (hex_char_facts _ Hlo) as (_ & _ & Hc2).
    change (String ?a (String ?b ?s) ++ ?t)%string with (String a (String b (s ++ t)%string)).
    rewrite (str_split_cons_other _ _ _ Hc1), (str_split_cons_other _ _ _ Hc2).
    by rewrite IH.
Qed.

Lemma str_split_length (s : string) :
  length (str_split ":" s) = S (count_char ":" s).
Proof.
  induction s as [|c s IH]; [done|].
  rewrite str_split_String. cbn [count_char].
  destruct (Ascii.eqb c ":").
  - simpl. by rewrite IH.
  - destruct (str_split ":" s); simpl in *; lia.
Qed.

(** No prefix of a cache text that stops within the IV has a colon. *)
Lemma substring_hex_no_colon (iv : bytes) (rest : string) (n : nat) :
  (n ≤ 2 * length iv)%nat →
  count_char ":" (String.substring 0 n (bytes_hex iv ++ rest)) = 0%nat.
Proof.
  revert n. induction iv as [|x iv IH]; intros n Hn.
  - simpl in Hn. assert (n = 0%nat) as -> by lia.
    by destruct (bytes_hex [] ++ rest)%string.
  - rewrite bytes_hex_cons.
    destruct (byte_nibbles x) as [Hhi Hlo].
    destruct (hex_char_facts _ Hhi) as (_ & _ & Hc1).
    destruct (hex_char_facts _ Hlo) as (_ & _ & Hc2).
    change (String ?a (String ?b ?s) +:+ ?r)%string
      with (String a (String b (s +:+ r)))%string.
    destruct n as [|[|n]]; [done| |].
    + change (count_char ":" (String (hex_char (byte_val x / 16)) EmptyString)
              = 0%nat).
      simpl. by rewrite Hc1.
    + change ((if Ascii.eqb (hex_char (byte_val x / 16)) ":" then 1 else 0)
              + ((if Ascii.eqb (hex_char (byte_val x mod 16)) ":" then 1 else 0)
                 + count_char ":"
                     (String.substring 0 n (bytes_hex iv +:+ rest)))
              = 0)%nat.
      rewrite Hc1, Hc2. simpl. apply IH. simpl in Hn. lia.
Qed.

(** ** [save_cache] on a valid record *)

Lemma world_iv_length (w : World) : length (world_iv w) = 16%nat.
Proof.
  unfold world_iv. rewrite length_app, length_replicate, length_take. lia.
Qed.

Lemma truthy_dict_with_valid (d : gmap string json) :
  truthy (default JNull (d !! "valid")) = true → truthy (JObj d) = true.
Proof.
  intros Hvalid. unfold truthy at 1. rewrite bool_decide_eq_false_2; [done|].
  intros ->. by rewrite lookup_empty in Hvalid.
Qed.

Section SaveRun.
Context {P : Platform}.

Lemma encrypt_aes_ok (data : string) (key iv encoded : bytes) :
  aes_key_size_ok key = true →
  length iv = 16%nat →
  str_encode data = Ok encoded →
  _encrypt_aes data key iv
  = Ok (cbc_encrypt_blocks key iv (chunks 16 (_pad_data encoded))).
Proof.
  intros Hkey Hiv Henc. unfold _encrypt_aes, Cipher, encryptor_run.
  rewrite Hkey, Hiv, Henc. simpl. by rewrite pad_data_length.
Qed.

Lemma encrypt_then_decrypt {L : PlatformLaws P} (data : string) (key iv ct : bytes) :
  _encrypt_aes data key iv = Ok ct → _decrypt_aes ct key iv = Ok data.
Proof.
  unfold _encrypt_aes, _decrypt_aes, Cipher.
  destruct (aes_key_size_ok key) eqn:Hkey; simpl; [|done].
  destruct (Z.of_nat (length iv) =? block_size) eqn:Hiv; simpl; [|done].
  apply Z.eqb_eq in Hiv. unfold block_size in Hiv.
  destruct (str_encode data) as [encoded|] eqn:Henc; simpl; [|done].
  intros Hrun.
  destruct (decryptor_encryptor_run (mk_cipher key iv) (_pad_data encoded))
    as (ct' & Hrun' & Hback); [done|simpl; lia|apply pad_data_length|].
  rewrite Hrun in Hrun'. injection Hrun' as <-.
  rewrite Hback. simpl. rewrite unpad_pad_data. simpl.
  by apply bytes_decode_encode.
Qed.

(** What [save_cache] does with a record whose [valid] is true once the
    ciphertext [ct] has been computed. *)
Lemma save_cache_run (st : state) (d : gmap string json) (hw ct : bytes) :
  license_info (self st) = Some (JObj d) →
  truthy (default JNull (d !! "valid")) = true →
  HAS_CRYPTO = true →
  str_encode (hwid (self st)) = Ok hw →
  _encrypt_aes (json_dumps (JObj d)) (sha256_digest hw) (world_iv (world st)) = Ok ct →
  save_cache st =
    (Ok (w_can_write (world st) && w_can_chmod (world st)),
     mk_state (self st)
       (if w_can_write (world st)
        then log_event IoChmod
               (set_cache_file (FileText (cache_text (world_iv (world st)) ct))
                  (log_event (IoWrite (cache_text (world_iv (world st)) ct))
                             (world st)))
        else
          match w_failed_write_keeps (world st) with
          | Some n =>
              set_cache_file
                (FileText (String.substring 0 n (cache_text (world_iv (world st)) ct)))
                (log_event (IoWrite (cache_text (world_iv (world st)) ct))
                           (world st))
          | None =>
              log_event (IoWrite (cache_text (world_iv (world st)) ct)) (world st)
          end)).
Proof.
  intros Hinfo Hvalid Hcrypto Hhw Hct.
  pose proof (truthy_dict_with_valid d Hvalid) as Hdict.
  destruct st as [c w]. simpl in *. unfold_methods.
  unfold world_iv, cache_text in *.
  destruct (w_can_write w) eqn:Hw, (w_can_chmod w) eqn:Hm,
           (w_failed_write_keeps w) as [n|] eqn:Hk;
    repeat (progress (simpl;
      rewrite ?Hinfo, ?Hdict, ?Hvalid, ?Hcrypto, ?Hhw, ?Hct, ?Hw, ?Hm, ?Hk));
    reflexivity.
Qed.

End SaveRun.

(** X1. [save_cache] on a record whose [valid] is true, on a host with a
    crypto backend, a 256-bit derived key and encodable texts: the
    ciphertext of the serialized record is computed under a fresh
    16-byte IV and [<iv hex>:<ciphertext hex>] is written. The result is
    [True] exactly when both the write and the [chmod] succeed. A write
    that does not go through leaves the file as it was when it could not
    be opened, and otherwise with the part of the text that got through,
    possibly nothing, because opening truncates. When only the [chmod]
    fails the method returns [False] although the file has already been
    replaced. The client is not changed. *)
Theorem save_cache_outcome {P : Platform} (st : state)
    (d : gmap string json) (hw encoded : bytes) :
  license_info (self st) = Some (JObj d) →
  truthy (default JNull (d !! "valid")) = true →
  HAS_CRYPTO = true →
  str_encode (hwid (self st)) = Ok hw →
  aes_key_size_ok (sha256_digest hw) = true →
  str_encode (json_dumps (JObj d)) = Ok encoded →
  ∃ ct,
    _encrypt_aes (json_dumps (JObj d)) (sha256_digest hw) (world_iv (world st))
    = Ok ct
    ∧ (save_cache st).1 = Ok (w_can_write (world st) && w_can_chmod (world st))
    ∧ self (save_cache st).2 = self st
    ∧ w_cache_file (world (save_cache st).2)
      = (if w_can_write (world st)
         then FileText (cache_text (world_iv (world st)) ct)
         else
           match w_failed_write_keeps (world st) with
           | Some n =>
               FileText (String.substring 0 n (cache_text (world_iv (world st)) ct))
           | None => w_cache_file (world st)
           end).
Proof.
  intros Hinfo Hvalid Hcrypto Hhw Hkey Henc.
  pose proof (encrypt_aes_ok _ _ _ _ Hkey (world_iv_length (world st)) Henc) as Hct.
  eexists. split; [exact Hct|].
  rewrite (save_cache_run st d hw _ Hinfo Hvalid Hcrypto Hhw Hct). simpl.
  repeat split.
  by destruct (w_can_write (world st)), (w_failed_write_keeps (world st)).
Qed.

(** X21. A write that fails after the file was opened costs the old
    cache. When the write stops within the first 32 characters (the IV;
    in particular when nothing gets through), [save_cache] returns
    [False], the file is left with a text without colon, and every later
    [validate_offline] on it returns [False], whatever the file held
    before the call. *)
Theorem failed_write_destroys_cache {P : Platform} (st : state)
    (d : gmap string json) (hw encoded : bytes) (n : nat) :
  license_info (self st) = Some (JObj d) →
  truthy (default JNull (d !! "valid")) = true →
  HAS_CRYPTO = true →
  str_encode (hwid (self st)) = Ok hw →
  aes_key_size_ok (sha256_digest hw) = true →
  str_encode (json_dumps (JObj d)) = Ok encoded →
  w_can_write (world st) = false →
  w_failed_write_keeps (world st) = Some n →
  (n ≤ 32)%nat →
  (save_cache st).1 = Ok false
  ∧ (∃ data, w_cache_file (world (save_cache st).2) = FileText data
             ∧ count_char ":" data = 0%nat)
  ∧ ∀ c, (validate_offline (mk_state c (world (save_cache st).2))).1 = Ok false.
Proof.
  intros Hinfo Hvalid Hcrypto Hhw Hkey Henc Hw Hkeeps Hn.
  pose proof (encrypt_aes_ok _ _ _ _ Hkey (world_iv_length (world st)) Henc) as Hct.
  rewrite (save_cache_run st d hw _ Hinfo Hvalid Hcrypto Hhw Hct).
  rewrite Hw, Hkeeps. simpl.
  assert (count_char ":"
            (String.substring 0 n
               (cache_text (world_iv (world st))
                  (cbc_encrypt_blocks (sha256_digest hw) (world_iv (world st))
                     (chunks 16 (_pad_data encoded)))))
          = 0%nat) as Hcount.
  { apply substring_hex_no_colon. rewrite world_iv_length. lia. }
  split; [done|]. split; [eauto|].
  intros c.
  match goal with
  | |- (validate_offline ?s).1 = _ =>
      destruct (validate_offline_cases s)
        as [(w' & Hrun & _)|(d' & Hdec & _ & _)]; [by rewrite Hrun|]
  end.
  destruct Hdec as (data & a & b & _ & _ & _ & _ & Hfile & Hsplit & _).
  simpl in Hfile. injection Hfile as <-.
  pose proof (str_split_length
                (String.substring 0 n
                   (cache_text (world_iv (world st))
                      (cbc_encrypt_blocks (sha256_digest hw) (world_iv (world st))
                         (chunks 16 (_pad_data encoded)))))) as Hlen.
  rewrite Hsplit, Hcount in Hlen. discriminate Hlen.
Qed.

(** A file holding [cache_text iv ct], where [ct] encrypts the
    serialized record under the key of this hardware id, decrypts to the
    record. *)
Lemma cache_text_decrypts {P : Platform} {L : PlatformLaws P} (st : state)
    (d : gmap string json) (hw iv ct : bytes) :
  HAS_CRYPTO = true →
  str_encode (hwid (self st)) = Ok hw →
  w_cache_file (world st) = FileText (cache_text iv ct) →
  _encrypt_aes (json_dumps (JObj d)) (sha256_digest hw) iv = Ok ct →
  json_loads (json_dumps (JObj d)) = Ok (JObj d) →
  cache_decrypts_to st (JObj d).
Proof.
  intros Hcrypto Hhw Hfile Hct Hjson. unfold cache_decrypts_to.
  eexists _, _, _, _, _, _, _.
  split; [exact Hfile|].
  split; [apply str_split_cache_text|].
  split; [apply fromhex_hex|]. split; [apply fromhex_hex|].
  split; [done|]. split; [exact Hhw|].
  split; [|exact Hjson].
  by apply encrypt_then_decrypt.
Qed.

(** X2. What [save_cache] has written, [validate_offline] can read back:
    after a [save_cache] that could write, the cache file decrypts to the
    saved record for every client with the same hardware id, provided the
    backend's cipher and codecs are inverse pairs and [json.loads] reads
    the saved text back. *)
Theorem saved_cache_decrypts {P : Platform} (L : PlatformLaws P) (st : state)
    (d : gmap string json) (hw encoded : bytes) :
  license_info (self st) = Some (JObj d) →
  truthy (default JNull (d !! "valid")) = true →
  HAS_CRYPTO = true →
  str_encode (hwid (self st)) = Ok hw →
  aes_key_size_ok (sha256_digest hw) = true →
  str_encode (json_dumps (JObj d)) = Ok encoded →
  json_loads (json_dumps (JObj d)) = Ok (JObj d) →
  w_can_write (world st) = true →
  ∀ st', hwid (self st') = hwid (self st) →
         w_cache_file (world st') = w_cache_file (world (save_cache st).2) →
         cache_decrypts_to st' (JObj d).
Proof.
  intros Hinfo Hvalid Hcrypto Hhw Hkey Henc Hjson Hwrite st' Hhwid Hfile.
  pose proof (encrypt_aes_ok _ _ _ _ Hkey (world_iv_length (world st)) Henc) as Hct.
  rewrite (save_cache_run st d hw _ Hinfo Hvalid Hcrypto Hhw Hct) in Hfile.
  rewrite Hwrite in Hfile. simpl in Hfile.
  eapply (cache_text_decrypts st' d hw); try eassumption.
  by rewrite Hhwid.
Qed.

(** ** The branches of [validate] *)

Ltac unfold_validate :=
  cbv [validate try_except bind ret raise lift get_self get_world
       modify_self modify_world utcnow urlopen_read].

Section ValidateRuns.
Context {P : Platform}.

Lemma save_cache_self (st : state) : self (save_cache st).2 = self st.
Proof.
  destruct (save_cache_cases st) as [->|(d & b & w' & _ & _ & _ & ->)]; done.
Qed.

Lemma key_present (key : string) :
  key ≠ EmptyString → key_missing (Some key) = false.
Proof.
  intros Hne. simpl. destruct (String.eqb key "") eqn:E; [|done].
  by apply String.eqb_eq in E.
Qed.

(** No verdict from the server: [validate] is [validate_offline] run
    after the request. *)
Lemma validate_fallback_run (st : state) (key : string) (body : bytes) :
  license_key (self st) = Some key →
  key ≠ EmptyString →
  str_encode (json_dumps (request_data (self st))) = Ok body →
  no_server_verdict (world st) →
  validate st =
    validate_offline (mk_state (self st) (after_request (self st) body (world st))).
Proof.
  intros Hkey Hne Hbody Hno. destruct st as [c w]. simpl in *.
  pose proof (key_present key Hne) as Hpresent.
  destruct (validate_offline_total (mk_state c (after_request c body w)))
    as (b & st2 & Hrun).
  unfold after_request in *.
  unfold_validate. simpl. rewrite Hkey, Hpresent, Hbody. simpl.
  destruct Hno as [(e & Hs)|[(raw & e & Hs & Hd)|[(raw & text & e & Hs & Hd & Hj)
                  |(raw & text & v & Hs & Hd & Hj & Hv)]]];
    rewrite Hs; simpl; rewrite ?Hd; simpl; rewrite ?Hj; simpl;
    try (rewrite Hrun; by destruct b).
  destruct v; simpl; try (rewrite Hrun; by destruct b). by destruct (Hv d).
Qed.

(** The server accepts: the record is stored, offline mode is switched
    off, [save_cache] runs, and the result is [True] whatever
    [save_cache] returned. *)
Lemma validate_valid_run (st : state) (key : string) (body raw : bytes)
    (text : string) (resp : gmap string json) :
  license_key (self st) = Some key →
  key ≠ EmptyString →
  str_encode (json_dumps (request_data (self st))) = Ok body →
  w_server (world st) = Ok raw →
  bytes_decode raw = Ok text →
  json_loads text = Ok (JObj resp) →
  truthy (default JNull (resp !! "valid")) = true →
  validate st =
    (Ok true,
     (save_cache
        (mk_state
           (set_offline_mode false
              (set_license_info
                 (Some (record_from_response resp (w_now (world st)))) (self st)))
           (after_request (self st) body (world st)))).2).
Proof.
  intros Hkey Hne Hbody Hs Hd Hj Hvalid. destruct st as [c w]. simpl in *.
  pose proof (key_present key Hne) as Hpresent.
  unfold_validate. simpl. rewrite Hkey, Hpresent, Hbody. simpl.
  rewrite Hs. simpl. rewrite Hd. simpl. rewrite Hj. simpl. rewrite Hvalid. simpl.
  match goal with
  | |- context [save_cache ?s] =>
      destruct (save_cache_total s) as (b & st2 & Hrun)
  end.
  unfold record_from_response, after_request, naive.
  rewrite Hrun. reflexivity.
Qed.

(** The server rejects and its message can be printed: the rejection is
    stored and nothing else happens. *)
Lemma validate_invalid_run (st : state) (key : string) (body raw : bytes)
    (text : string) (resp : gmap string json) :
  license_key (self st) = Some key →
  key ≠ EmptyString →
  str_encode (json_dumps (request_data (self st))) = Ok body →
  w_server (world st) = Ok raw →
  bytes_decode raw = Ok text →
  json_loads text = Ok (JObj resp) →
  truthy (default JNull (resp !! "valid")) = false →
  line_encodes "License validation failed: "
    (default (JStr "License validation failed") (resp !! "error")) →
  validate st =
    (Ok false,
     mk_state
       (set_license_info
          (Some (invalid_record
                   (default (JStr "License validation failed") (resp !! "error"))))
          (self st))
       (after_request (self st) body (world st))).
Proof.
  intros Hkey Hne Hbody Hs Hd Hj Hvalid Hline. destruct st as [c w]. simpl in *.
  pose proof (key_present key Hne) as Hpresent.
  unfold_validate. simpl. rewrite Hkey, Hpresent, Hbody. simpl.
  rewrite Hs. simpl. rewrite Hd. simpl. rewrite Hj. simpl. rewrite Hvalid. simpl.
  unfold print_formatted, lift.
  destruct (default (JStr "License validation failed") (resp !! "error"))
    as [| | | |s| |] eqn:Herr; try reflexivity.
  destruct (Hline s eq_refl) as [b Hb]. by rewrite Hb.
Qed.

(** The server rejects and its message cannot be printed: the rejection
    is stored, the [print] raises inside the [try], and the handler runs
    [validate_offline]. *)
Lemma validate_unprintable_run (st : state) (key : string) (body raw : bytes)
    (text : string) (resp : gmap string json) (s : string) (e : exn) :
  license_key (self st) = Some key →
  key ≠ EmptyString →
  str_encode (json_dumps (request_data (self st))) = Ok body →
  w_server (world st) = Ok raw →
  bytes_decode raw = Ok text →
  json_loads text = Ok (JObj resp) →
  truthy (default JNull (resp !! "valid")) = false →
  default (JStr "License validation failed") (resp !! "error") = JStr s →
  str_encode ("License validation failed: " ++ s)%string = Raise e →
  validate st =
    validate_offline
      (mk_state
         (set_license_info (Some (invalid_record (JStr s))) (self st))
         (after_request (self st) body (world st))).
Proof.
  intros Hkey Hne Hbody Hs Hd Hj Hvalid Herr Hline. destruct st as [c w].
  simpl in *.
  pose proof (key_present key Hne) as Hpresent.
  destruct (validate_offline_total
              (mk_state (set_license_info (Some (invalid_record (JStr s))) c)
                        (after_request c body w)))
    as (b & st2 & Hrun).
  unfold after_request in *.
  unfold_validate. simpl. rewrite Hkey, Hpresent, Hbody. simpl.
  rewrite Hs. simpl. rewrite Hd. simpl. rewrite Hj. simpl. rewrite Hvalid. simpl.
  rewrite Herr. simpl. unfold print_formatted, lift. rewrite Hline. simpl.
  rewrite Hrun. by destruct b.
Qed.

Lemma line_encodes_or_not (prefix : string) (v : json) :
  line_encodes prefix v
  ∨ ∃ s e, v = JStr s ∧ str_encode (prefix ++ s)%string = Raise e.
Proof.
  destruct v as [| | | |s| |]; try (left; intros s' Hs'; discriminate Hs').
  destruct (str_encode (prefix ++ s)%string) as [b|e] eqn:Henc.
  - left. intros s' [= <-]. eauto.
  - right. eauto.
Qed.

End ValidateRuns.


(** X4. When the request brings back no JSON object (transport failure,
    undecodable body, invalid JSON, or a JSON value that is not an
    object), [validate] is exactly [validate_offline] run after the
    request. If that also fails, [validate] returns [False] and the
    client keeps the license record it had before the call, so
    [is_valid] and [has_feature] answer as they did. *)
Theorem validate_falls_back_offline {P : Platform} (st : state)
    (key : string) (body : bytes) :
  license_key (self st) = Some key →
  key ≠ EmptyString →
  str_encode (json_dumps (request_data (self st))) = Ok body →
  no_server_verdict (world st) →
  validate st
  = validate_offline (mk_state (self st) (after_request (self st) body (world st)))
  ∧ ((validate st).1 = Ok false →
     self (validate st).2 = self st
     ∧ is_valid (self (validate st).2) = is_valid (self st)
     ∧ ∀ name, has_feature (self (validate st).2) name = has_feature (self st) name).
Proof.
  intros Hkey Hne Hbody Hno.
  rewrite (validate_fallback_run st key body) by done.
  split; [done|]. intros Hfalse.
  destruct (validate_offline_cases
              (mk_state (self st) (after_request (self st) body (world st))))
    as [(w' & Hrun & _)|(d & _ & _ & Hrun)]; rewrite Hrun in *; [|done].
  done.
Qed.

(** ** From an online validation to offline validations *)

Lemma valid_record_lookups {P : Platform} (expires features owner : json)
    (now : datetime) :
  ∃ d, valid_record expires features owner now = JObj d
       ∧ d !! "valid" = Some (JBool true)
       ∧ d !! "validatedAt" = Some (JStr (isoformat now))
       ∧ d !! "expiresAt" = Some expires
       ∧ d !! "features" = Some features
       ∧ d !! "offlineMode" = Some (JBool false).
Proof. eexists. split; [reflexivity|]. by vm_compute. Qed.

(** X5. An online validation followed by offline ones. Suppose the server
    accepts the license at time [t0] on a host with a crypto backend and
    a writable cache, whose codecs read back what they wrote, and the
    answer's [expiresAt] is [null], missing, or a naive timestamp. Then
    any later [validate_offline] on the same machine with the cache file
    [validate] left behind accepts exactly when
    [now - t0 <= OFFLINE_GRACE_DAYS] and the license has no expiry or
    [now <= expiresAt]: the record [validate] caches always carries both
    keys that [validate_offline] insists on. *)
Theorem online_validation_enables_offline {P : Platform} (L : PlatformLaws P)
    (st : state) (key : string) (body raw : bytes) (text : string)
    (resp : gmap string json) (hw encoded : bytes) (e : option Z) :
  license_key (self st) = Some key →
  key ≠ EmptyString →
  str_encode (json_dumps (request_data (self st))) = Ok body →
  w_server (world st) = Ok raw →
  bytes_decode raw = Ok text →
  json_loads text = Ok (JObj resp) →
  truthy (default JNull (resp !! "valid")) = true →
  HAS_CRYPTO = true →
  str_encode (hwid (self st)) = Ok hw →
  aes_key_size_ok (sha256_digest hw) = true →
  str_encode (json_dumps (record_from_response resp (w_now (world st)))) = Ok encoded →
  json_loads (json_dumps (record_from_response resp (w_now (world st))))
  = Ok (record_from_response resp (w_now (world st))) →
  fromisoformat (isoformat (naive (w_now (world st)))) = Ok (naive (w_now (world st))) →
  w_can_write (world st) = true →
  expiry_value (default JNull (resp !! "expiresAt")) e →
  0 ≤ w_now (world st) + timedelta_days OFFLINE_GRACE_DAYS ≤ DATETIME_MAX →
  ∀ st', hwid (self st') = hwid (self st) →
         w_cache_file (world st') = w_cache_file (world (validate st).2) →
         (validate_offline st').1 = Ok true
         ↔ spec_offline_acceptance (w_now (world st')) (w_now (world st)) e.
Proof.
  intros Hkey Hne Hbody Hs Hd Hj Hvalid Hcrypto Hhw Hsize Henc Hjson Hiso
         Hwrite Hexp Hrange st' Hhwid Hfile.
  rewrite (validate_valid_run st key body raw text resp) in Hfile by done.
  unfold record_from_response in *.
  destruct (valid_record_lookups (default JNull (resp !! "expiresAt"))
              (default (JArr []) (resp !! "features"))
              (default (JStr "Unknown") (resp !! "owner"))
              (naive (w_now (world st))))
    as (d & Hrec & Hlv & Hlt & Hle & _).
  rewrite Hrec in *.
  pose proof (encrypt_aes_ok _ _ _ _ Hsize
                (world_iv_length (after_request (self st) body (world st))) Henc)
    as Hct.
  assert (truthy (default JNull (d !! "valid")) = true) as Hdv by (by rewrite Hlv).
  pose proof (save_cache_run
                (mk_state
                   (set_offline_mode false
                      (set_license_info (Some (JObj d)) (self st)))
                   (after_request (self st) body (world st)))
                d hw _ eq_refl Hdv Hcrypto Hhw Hct) as Hrun.
  rewrite Hrun in Hfile.
  simpl in Hfile. rewrite Hwrite in Hfile. simpl in Hfile.
  assert (cache_decrypts_to st' (JObj d)) as Hdec.
  { eapply (cache_text_decrypts st' d hw); try eassumption.
    by rewrite Hhwid. }
  rewrite (validate_offline_true_iff st' d Hdec).
  rewrite (offline_checks_naive _ d _ _ _ Hlt Hiso Hle).
  rewrite (license_expired_value _ _ e Hexp).
  unfold spec_offline_acceptance. split.
  - intros (_ & Hgrace & Hok). split; [lia|].
    destruct e as [t|]; [right|by left].
    injection Hok as Hok. apply Z.ltb_ge in Hok. eauto.
  - intros (Hgrace & Hok). repeat split; try lia. f_equal.
    destruct Hok as [->|(t & -> & Hle')]; [done|]. by apply Z.ltb_ge.
Qed.

(** ** The query methods after a validation *)

(** X6. After the server rejected the license with an error message
    that can be printed (any message without a lone surrogate, or none),
    [is_valid] and [is_offline_mode] answer [False] and [has_feature]
    answers [False] for every feature name, without raising. *)
Theorem queries_after_rejection {P : Platform} (st : state)
    (key : string) (body raw : bytes) (text : string) (resp : gmap string json) :
  license_key (self st) = Some key →
  key ≠ EmptyString →
  str_encode (json_dumps (request_data (self st))) = Ok body →
  w_server (world st) = Ok raw →
  bytes_decode raw = Ok text →
  json_loads text = Ok (JObj resp) →
  truthy (default JNull (resp !! "valid")) = false →
  line_encodes "License validation failed: "
    (default (JStr "License validation failed") (resp !! "error")) →
  is_valid (self (validate st).2) = Ok (JBool false)
  ∧ is_offline_mode (self (validate st).2) = Ok (JBool false)
  ∧ ∀ name, has_feature (self (validate st).2) name = Ok false.
Proof.
  intros Hkey Hne Hbody Hs Hd Hj Hvalid Hline.
  rewrite (validate_invalid_run st key body raw text resp) by done.
  by repeat split.
Qed.

(** X19. When the server answers with a false [valid] and an error
    message that can be printed, [validate] stores exactly the two-key
    record [{valid: False, error: message}], with the default message
    when the answer has none, and returns [False]. The only interaction
    with the outside is the request itself: the cache file is neither
    written, nor tested for existence, nor read. *)
Theorem printable_rejection_is_final {P : Platform} (st : state)
    (key : string) (body raw : bytes) (text : string) (resp : gmap string json) :
  license_key (self st) = Some key →
  key ≠ EmptyString →
  str_encode (json_dumps (request_data (self st))) = Ok body →
  w_server (world st) = Ok raw →
  bytes_decode raw = Ok text →
  json_loads text = Ok (JObj resp) →
  truthy (default JNull (resp !! "valid")) = false →
  line_encodes "License validation failed: "
    (default (JStr "License validation failed") (resp !! "error")) →
  validate st =
    (Ok false,
     mk_state
       (set_license_info
          (Some (JObj (<["valid" := JBool false]>
                       {["error" := default (JStr "License validation failed")
                                            (resp !! "error")]})))
          (self st))
       (log_event (IoRequest (api_url (self st) ++ "/verify")%string body)
                  (world st))).
Proof.
  intros Hkey Hne Hbody Hs Hd Hj Hvalid Hline.
  by rewrite (validate_invalid_run st key body raw text resp).
Qed.

(** X20. When the server answers with a false [valid] and an error
    message that cannot be printed, the [print] of the rejection branch
    raises inside the [try], and [validate] is [validate_offline] run on
    the client that already stores the rejection. If the cache is not
    accepted, [validate] returns [False] and the rejection stays stored;
    if it is, the cache decrypted to a record that passed the offline
    checks, and that record replaces the rejection. *)
Theorem unprintable_rejection_falls_back {P : Platform} (st : state)
    (key : string) (body raw : bytes) (text : string) (resp : gmap string json)
    (s : string) (e : exn) :
  license_key (self st) = Some key →
  key ≠ EmptyString →
  str_encode (json_dumps (request_data (self st))) = Ok body →
  w_server (world st) = Ok raw →
  bytes_decode raw = Ok text →
  json_loads text = Ok (JObj resp) →
  truthy (default JNull (resp !! "valid")) = false →
  resp !! "error" = Some (JStr s) →
  str_encode ("License validation failed: " ++ s)%string = Raise e →
  let rejected :=
    mk_state
      (set_license_info
         (Some (JObj (<["valid" := JBool false]> {["error" := JStr s]})))
         (self st))
      (after_request (self st) body (world st)) in
  validate st = validate_offline rejected
  ∧ ((validate st).1 = Ok false → self (validate st).2 = self rejected)
  ∧ ((validate st).1 = Ok true →
     ∃ d, cache_decrypts_to rejected (JObj d)
          ∧ offline_checks (w_now (world st)) d
          ∧ self (validate st).2 = offline_client d (self rejected)).
Proof.
  intros Hkey Hne Hbody Hs Hd Hj Hvalid Herr Hline rejected.
  assert (validate st = validate_offline rejected) as Hrun.
  { rewrite (validate_unprintable_run st key body raw text resp s e); try done.
    by rewrite Herr. }
  rewrite Hrun. split; [done|].
  destruct (validate_offline_cases rejected)
    as [(w' & Hoff & _)|(d & Hcache & Hchecks & Hoff)]; rewrite Hoff; simpl.
  - split; [done|]. intros Htrue. discriminate Htrue.
  - split; [intros Hfalse; discriminate Hfalse|]. intros _. by exists d.
Qed.

(** X7. After the server accepted the license, [is_valid] answers
    [True] and [has_feature(name)] is the Python test [name in features]
    on the [features] value of the answer: membership for a list, [False]
    for every name when the answer has no [features] (the default is
    [[]]). An answer whose [features] is [null] is stored as it is, and
    then [has_feature] raises [TypeError] for every name. *)
Theorem has_feature_after_acceptance {P : Platform} (st : state)
    (key : string) (body raw : bytes) (text : string) (resp : gmap string json) :
  license_key (self st) = Some key →
  key ≠ EmptyString →
  str_encode (json_dumps (request_data (self st))) = Ok body →
  w_server (world st) = Ok raw →
  bytes_decode raw = Ok text →
  json_loads text = Ok (JObj resp) →
  truthy (default JNull (resp !! "valid")) = true →
  is_valid (self (validate st).2) = Ok (JBool true)
  ∧ (∀ name, has_feature (self (validate st).2) name
             = py_contains name (default (JArr []) (resp !! "features")))
  ∧ (∀ l name, resp !! "features" = Some (JArr l) →
               has_feature (self (validate st).2) name
               = Ok (existsb (is_str name) l))
  ∧ (∀ name, resp !! "features" = None →
             has_feature (self (validate st).2) name = Ok false)
  ∧ (∀ name, resp !! "features" = Some JNull →
             has_feature (self (validate st).2) name = Raise TypeError).
Proof.
  intros Hkey Hne Hbody Hs Hd Hj Hvalid.
  rewrite (validate_valid_run st key body raw text resp) by done.
  simpl. rewrite save_cache_self. simpl.
  assert (∀ name,
    has_feature
      (set_offline_mode false
         (set_license_info (Some (record_from_response resp (w_now (world st))))
            (self st))) name
    = py_contains name (default (JArr []) (resp !! "features"))) as Hfeat.
  { intros name. unfold record_from_response.
    destruct (valid_record_lookups (default JNull (resp !! "expiresAt"))
                (default (JArr []) (resp !! "features"))
                (default (JStr "Unknown") (resp !! "owner"))
                (naive (w_now (world st))))
      as (d & -> & Hlv & _ & _ & Hlf & _).
    unfold has_feature, is_valid. simpl. rewrite Hlv. simpl.
    by rewrite Hlf. }
  split; [done|]. split; [done|]. split; [|split].
  - intros l name Hl. by rewrite Hfeat, Hl.
  - intros name Hl. by rewrite Hfeat, Hl.
  - intros name Hl. by rewrite Hfeat, Hl.
Qed.

(** ** More on [validate_offline] *)

Section OfflineMore.
Context {P : Platform}.

Lemma validate_offline_true_char (st : state) :
  (validate_offline st).1 = Ok true
  ↔ ∃ d, cache_decrypts_to st (JObj d) ∧ offline_checks (w_now (world st)) d.
Proof.
  split.
  - intros Hr. destruct (validate_offline_cases st) as
      [(w' & Hrun & _)|(d & Hdec & Hchecks & _)]; [by rewrite Hrun in Hr|eauto].
  - intros (d & Hdec & Hchecks). by rewrite (validate_offline_accept st d).
Qed.

Lemma cache_decrypts_to_same_machine (st1 st2 : state) (cache : json) :
  hwid (self st1) = hwid (self st2) →
  w_cache_file (world st1) = w_cache_file (world st2) →
  cache_decrypts_to st1 cache → cache_decrypts_to st2 cache.
Proof.
  unfold cache_decrypts_to. intros -> ->. done.
Qed.

End OfflineMore.

(** X8. [validate_offline] never looks at the cached record's [valid]
    field. A decrypted record that passes the key, grace-period and
    expiry tests is accepted, after which [is_offline_mode] answers
    [True] and [is_valid] answers the record's own [valid] value: [False]
    when the record has none. *)
Theorem offline_acceptance_ignores_valid {P : Platform} (st : state)
    (d : gmap string json) :
  cache_decrypts_to st (JObj d) →
  offline_checks (w_now (world st)) d →
  (validate_offline st).1 = Ok true
  ∧ is_offline_mode (self (validate_offline st).2) = Ok (JBool true)
  ∧ is_valid (self (validate_offline st).2)
    = Ok (default (JBool false) (d !! "valid")).
Proof.
  intros Hdec Hchecks. rewrite (validate_offline_accept st d Hdec Hchecks).
  simpl. split; [done|]. unfold is_offline_mode, is_valid. simpl.
  rewrite lookup_insert_eq. split; [done|].
  by rewrite lookup_insert_ne.
Qed.

(** X9. The outcome of [validate_offline] depends on the client only
    through its hardware id: two clients on the same machine get the same
    answer from the same cache file at the same time, whatever their
    license keys, products, versions, API URLs and previous license
    records. *)
Theorem validate_offline_depends_on_hwid_only {P : Platform}
    (c1 c2 : LicenseClient) (w : World) :
  hwid c1 = hwid c2 →
  (validate_offline (mk_state c1 w)).1 = (validate_offline (mk_state c2 w)).1.
Proof.
  intros Hhwid.
  assert (∀ a b, hwid a = hwid b →
            (validate_offline (mk_state a w)).1 = Ok true →
            (validate_offline (mk_state b w)).1 = Ok true) as Hmono.
  { intros a b Hab Ha. apply validate_offline_true_char in Ha as (d & Hdec & Hchecks).
    apply validate_offline_true_char. exists d. split; [|done].
    by apply (cache_decrypts_to_same_machine (mk_state a w)). }
  destruct (validate_offline_result (mk_state c1 w)) as [H1|H1],
           (validate_offline_result (mk_state c2 w)) as [H2|H2];
    try congruence.
  - apply (Hmono c1 c2 Hhwid) in H1. congruence.
  - apply (Hmono c2 c1 (eq_sym Hhwid)) in H2. congruence.
Qed.

(** X10. A cache file whose text does not contain exactly one colon is
    rejected: [validate_offline] returns [False] after having read it,
    and the client is unchanged. *)
Theorem validate_offline_needs_one_colon {P : Platform} (st : state)
    (data : string) :
  w_cache_file (world st) = FileText data →
  count_char ":" data ≠ 1%nat →
  validate_offline st
  = (Ok false, mk_state (self st) (after_cache_read (world st))).
Proof.
  intros Hfile Hcount. destruct st as [c w]. simpl in *.
  assert (unpack2 (str_split ":" data) = Raise ValueError) as Hsplit.
  { pose proof (str_split_length data) as Hlen.
    destruct (str_split ":" data) as [|a [|b [|x xs]]]; simpl in *; try done.
    lia. }
  unfold_methods. simpl. rewrite Hfile. simpl. rewrite Hfile. simpl.
  by rewrite Hsplit.
Qed.

(** X11. Timestamps with a UTC offset defeat offline validation. A
    decrypted record whose [validatedAt] parses to a timezone-aware
    value, or whose [expiresAt] is a non-empty string that does, is
    rejected whatever the clock says: comparing it with the naive
    [utcnow()] raises [TypeError], which [validate_offline] turns into
    [False]. *)
Theorem validate_offline_rejects_aware_timestamps {P : Platform} (st : state)
    (d : gmap string json) (s : string) (t offset : Z) :
  cache_decrypts_to st (JObj d) →
  fromisoformat s = Ok (mk_datetime t (Some offset)) →
  d !! "validatedAt" = Some (JStr s)
  ∨ (d !! "expiresAt" = Some (JStr s) ∧ s ≠ EmptyString) →
  (validate_offline st).1 = Ok false.
Proof.
  intros Hdec Hparse Hwhere.
  destruct (validate_offline_result st) as [Htrue|Hfalse]; [|done].
  apply (validate_offline_true_iff st d Hdec) in Htrue
    as (vr & er & va & oe & Hv & He & Hva & Hoe & Hgt & Hexp).
  destruct Hwhere as [Hv'|[He' Hne]].
  - rewrite Hv in Hv'. injection Hv' as ->.
    unfold datetime_fromisoformat in Hva. rewrite Hparse in Hva.
    injection Hva as <-.
    unfold datetime_add in Hoe. simpl in Hoe.
    destruct (_ && _); [|done]. injection Hoe as <-. done.
  - rewrite He in He'. injection He' as ->.
    unfold license_expired, truthy in Hexp.
    destruct (String.eqb s "") eqn:E; [by apply String.eqb_eq in E|].
    simpl in Hexp. unfold datetime_fromisoformat in Hexp.
    rewrite Hparse in Hexp. done.
Qed.

(** X12. Any false [expiresAt] value switches the expiry test off, not
    only [null]: with [expiresAt] an empty string, [0], [false], an empty
    list or an empty object, a decrypted record with a naive
    [validatedAt] is accepted exactly when [now <= validatedAt + 7 days]. *)
Theorem false_expiry_means_no_expiry {P : Platform} (st : state)
    (d : gmap string json) (vs : string) (va : Z) (x : json) :
  cache_decrypts_to st (JObj d) →
  d !! "validatedAt" = Some (JStr vs) →
  fromisoformat vs = Ok (naive va) →
  0 ≤ va + timedelta_days OFFLINE_GRACE_DAYS ≤ DATETIME_MAX →
  d !! "expiresAt" = Some x →
  truthy x = false →
  (validate_offline st).1 = Ok true
  ↔ w_now (world st) ≤ va + timedelta_days OFFLINE_GRACE_DAYS.
Proof.
  intros Hdec Hv Hparse Hrange He Hfalse.
  rewrite (validate_offline_true_iff st d Hdec).
  rewrite (offline_checks_naive _ d vs va x Hv Hparse He).
  assert (license_expired (naive (w_now (world st))) x = Ok false) as Hexp
    by (unfold license_expired; by rewrite Hfalse).
  split; [by intros (_ & Hgrace & _)|by intros Hgrace].
Qed.

Lemma validate_offline_world {P : Platform} (st : state) :
  w_cache_file (world (validate_offline st).2) = w_cache_file (world st)
  ∧ (world (validate_offline st).2 = log_event IoExists (world st)
     ∨ world (validate_offline st).2 = after_cache_read (world st)).
Proof.
  destruct (validate_offline_cases st) as
    [(w' & Hrun & Hfile & Hlog)|(d & _ & _ & Hrun)]; rewrite Hrun; simpl.
  - done.
  - split; [done|by right].
Qed.

(** X13. [validate_offline] never writes: whatever it returns, the cache
    file is what it was, and the only interactions logged are the
    existence test and, for an existing file, one read. No request is
    sent. *)
Theorem validate_offline_only_reads {P : Platform} (st : state) :
  w_cache_file (world (validate_offline st).2) = w_cache_file (world st)
  ∧ (world (validate_offline st).2 = log_event IoExists (world st)
     ∨ world (validate_offline st).2 = after_cache_read (world st)).
Proof. apply validate_offline_world. Qed.

(** ** When [validate] touches the cache file *)

Section ValidateMore.
Context {P : Platform}.

Lemma validate_no_key_run (st : state) :
  key_missing (license_key (self st)) = true → validate st = (Ok false, st).
Proof.
  intros Hkey. unfold validate. rewrite bind_get_self. by rewrite Hkey.
Qed.

(** The request cannot even be encoded: [validate_offline] runs without
    any request having been sent. *)
Lemma validate_no_request_run (st : state) (e : exn) :
  key_missing (license_key (self st)) = false →
  str_encode (json_dumps (request_data (self st))) = Raise e →
  validate st = validate_offline st.
Proof.
  intros Hkey Hbody. destruct st as [c w]. simpl in *.
  destruct (validate_offline_total (mk_state c w)) as (b & st2 & Hrun).
  unfold_validate. simpl. rewrite Hkey, Hbody. simpl.
  rewrite Hrun. by destruct b.
Qed.

End ValidateMore.

(** X14. [validate] changes the cache file only after the server has
    accepted the license: if the file differs after the call, the license
    key was present, the request was sent, and the answer was a JSON
    object with a true [valid]; the call returned [True]. *)
Theorem validate_writes_cache_only_on_acceptance {P : Platform} (st : state) :
  w_cache_file (world (validate st).2) ≠ w_cache_file (world st) →
  ∃ key body raw text resp,
    license_key (self st) = Some key
    ∧ key ≠ EmptyString
    ∧ str_encode (json_dumps (request_data (self st))) = Ok body
    ∧ w_server (world st) = Ok raw
    ∧ bytes_decode raw = Ok text
    ∧ json_loads text = Ok (JObj resp)
    ∧ truthy (default JNull (resp !! "valid")) = true
    ∧ (validate st).1 = Ok true.
Proof.
  intros Hchanged.
  destruct (key_missing (license_key (self st))) eqn:Hmissing.
  { rewrite (validate_no_key_run st Hmissing) in Hchanged. done. }
  destruct (license_key (self st)) as [key|] eqn:Hkey; [|done].
  assert (key ≠ EmptyString) as Hne.
  { intros ->. done. }
  destruct (str_encode (json_dumps (request_data (self st)))) as [body|e] eqn:Hbody.
  2:{ rewrite (validate_no_request_run st e) in Hchanged by (done || by rewrite Hkey).
      by destruct (validate_offline_world st) as [Hfile _]. }
  assert (no_server_verdict (world st) → False) as Hverdict.
  { intros Hno.
    rewrite (validate_fallback_run st key body Hkey Hne Hbody Hno) in Hchanged.
    destruct (validate_offline_world
                (mk_state (self st) (after_request (self st) body (world st))))
      as [Hfile _].
    by rewrite Hfile in Hchanged. }
  destruct (w_server (world st)) as [raw|e] eqn:Hs;
    [|destruct Hverdict; left; eauto].
  destruct (bytes_decode raw) as [text|e] eqn:Hd;
    [|destruct Hverdict; right; left; eauto].
  destruct (json_loads text) as [v|e] eqn:Hj;
    [|destruct Hverdict; right; right; left; eauto 10].
  assert (∃ resp, v = JObj resp) as [resp ->].
  { destruct v; eauto;
      destruct Hverdict; right; right; right; eexists _, _, _; by repeat split. }
  destruct (truthy (default JNull (resp !! "valid"))) eqn:Hvalid.
  - exists key, body, raw, text, resp. repeat split; try done.
    by rewrite (validate_valid_run st key body raw text resp).
  - destruct (line_encodes_or_not "License validation failed: "
                (default (JStr "License validation failed") (resp !! "error")))
      as [Hline|(s & e & Herr & Hline)].
    + rewrite (validate_invalid_run st key body raw text resp) in Hchanged
        by done.
      done.
    + rewrite (validate_unprintable_run st key body raw text resp s e)
        in Hchanged by done.
      destruct (validate_offline_world
                  (mk_state
                     (set_license_info (Some (invalid_record (JStr s))) (self st))
                     (after_request (self st) body (world st))))
        as [Hfile _].
      by rewrite Hfile in Hchanged.
Qed.

(** ** Padding and ciphertext sizes *)

Lemma pad_data_length_eq (data : bytes) :
  Z.of_nat (length (_pad_data data)) = 16 * (Z.of_nat (length data) / 16 + 1).
Proof.
  pose proof (padding_size_range (Z.of_nat (length data))) as Hp.
  unfold _pad_data, block_size in *. rewrite length_app, length_replicate.
  rewrite Nat2Z.inj_add, Z2Nat.id by lia.
  pose proof (Z.div_mod (Z.of_nat (length data)) 16 ltac:(lia)). lia.
Qed.

(** X15. [_pad_data] always pads: the result is the data followed by
    [n = 16 - len(data) % 16] copies of the byte of value [n], with
    [1 <= n <= 16], and its length is the next multiple of 16 strictly
    above the data's length; data that already fills whole blocks gets a
    whole block of [0x10] bytes. *)
Theorem pad_data_shape (data : bytes) :
  ∃ n : Z,
    n = 16 - Z.of_nat (length data) mod 16
    ∧ 1 ≤ n ≤ 16
    ∧ _pad_data data = data ++ replicate (Z.to_nat n) (byte_of_Z n)
    ∧ byte_val (byte_of_Z n) = n
    ∧ Z.of_nat (length (_pad_data data))
      = 16 * (Z.of_nat (length data) / 16 + 1).
Proof.
  exists (block_size - Z.of_nat (length data) mod block_size).
  pose proof (padding_size_range (Z.of_nat (length data))) as Hp.
  split; [done|]. split; [done|]. split; [done|].
  split; [rewrite byte_val_of_Z; apply Z.mod_small; lia|].
  apply pad_data_length_eq.
Qed.

(** X16. What [_decrypt_aes] raises on malformed input. A key that is not
    128, 192 or 256 bits long, an IV that is not 16 bytes long, or data
    that is not a whole number of 16-byte blocks is a [ValueError]. Empty
    data passes the cipher and then fails in [_unpad_data], whose
    [data[-1]] is an [IndexError]. *)
Theorem decrypt_aes_errors {P : Platform} (data key iv : bytes) :
  (aes_key_size_ok key = false
   ∨ length iv ≠ 16%nat
   ∨ Z.of_nat (length data) mod 16 ≠ 0 →
   _decrypt_aes data key iv = Raise ValueError)
  ∧ (aes_key_size_ok key = true → length iv = 16%nat → data = [] →
     _decrypt_aes data key iv = Raise IndexError).
Proof.
  unfold _decrypt_aes, Cipher, decryptor_run, block_size. split.
  - intros Hbad.
    destruct (aes_key_size_ok key); simpl; [|done].
    destruct (Z.of_nat (length iv) =? 16) eqn:Hiv; simpl; [|done].
    apply Z.eqb_eq in Hiv.
    destruct (Z.of_nat (length data) mod 16 =? 0) eqn:Hmod; simpl; [|done].
    apply Z.eqb_eq in Hmod. destruct Hbad as [?|[?|?]]; (done || lia).
  - intros -> Hiv ->. rewrite Hiv. reflexivity.
Qed.

(** X17. The ciphertext [_encrypt_aes] returns is as long as the padded
    plaintext: [16 * (n / 16 + 1)] bytes for a payload that encodes to
    [n] bytes, never empty. *)
Theorem encrypt_aes_length {P : Platform} (L : PlatformLaws P)
    (payload : string) (key iv encoded : bytes) :
  aes_key_size_ok key = true →
  length iv = 16%nat →
  str_encode payload = Ok encoded →
  ∃ ciphertext,
    _encrypt_aes payload key iv = Ok ciphertext
    ∧ Z.of_nat (length ciphertext) = 16 * (Z.of_nat (length encoded) / 16 + 1).
Proof.
  intros Hkey Hiv Henc. eexists. split; [by apply encrypt_aes_ok|].
  destruct (chunks_fuel_exact (length (_pad_data encoded)) (_pad_data encoded)
              ltac:(lia) (pad_data_length encoded)) as [Hall Hcat].
  fold (chunks 16 (_pad_data encoded)) in Hall, Hcat.
  rewrite cbc_encrypt_blocks_length by done.
  assert (length (_pad_data encoded)
          = (16 * length (chunks 16 (_pad_data encoded)))%nat) as Hlen.
  { rewrite <- Hcat at 1. clear Hcat.
    induction Hall as [|b rest Hb _ IH]; [done|].
    rewrite concat_cons, length_app, Hb, IH. simpl. lia. }
  rewrite <- Hlen. apply pad_data_length_eq.
Qed.

(** ** [generate_hwid] *)

(** X18. With [netifaces] available, an interface contributes to the
    hardware id only through the address of its first link-layer entry,
    and not at all when it has no link-layer family, an empty link-layer
    list, a first entry without address, an empty address or the all-zero
    address [00:00:00:00:00:00]: the id is the same as on a machine
    without that interface. *)
Theorem generate_hwid_skips_unusable_interfaces {P : Platform} (h : HostFacts)
    (before after : list (option (list (option string))))
    (i : option (list (option string))) :
  HAS_NETINFO h = true →
  netifaces_interfaces h = before ++ i :: after →
  i = None
  ∨ i = Some []
  ∨ (∃ rest, i = Some (None :: rest))
  ∨ (∃ rest, i = Some (Some EmptyString :: rest))
  ∨ (∃ rest, i = Some (Some "00:00:00:00:00:00"%string :: rest)) →
  generate_hwid h
  = generate_hwid
      (mk_host_facts true (platform_processor h) (os_cpu_count h)
                     (before ++ after) (fallback_mac_scan h) (psutil_mem_total h)).
Proof.
  intros Hnet Hifs Hbad.
  assert (link_address i = []) as Hnone.
  { destruct Hbad as [->|[->|[(rest & ->)|[(rest & ->)|(rest & ->)]]]]; done. }
  unfold generate_hwid. simpl. rewrite Hnet, Hifs.
  unfold netinfo_mac_addresses.
  rewrite !map_app, !concat_app. simpl. by rewrite Hnone.
Qed.

Lemma generate_hwid_skips_unusable_interfaces_witness :
  HAS_NETINFO ScenarioHost.facts = true
  ∧ generate_hwid (P := TestHost.host) ScenarioHost.facts
    = generate_hwid (P := TestHost.host)
        (mk_host_facts true "x86_64" "8"
           [None; Some []; Some [None];
            Some [Some "52:54:00:12:34:56"; Some "aa:bb:cc:dd:ee:ff"]]%string
           (Ok []) "16777216000").
Proof.
  split; [reflexivity|].
  apply (generate_hwid_skips_unusable_interfaces (P := TestHost.host)
           ScenarioHost.facts []
           [None; Some []; Some [None];
            Some [Some "52:54:00:12:34:56"; Some "aa:bb:cc:dd:ee:ff"]]%string
           (Some [Some "00:00:00:00:00:00"%string])
           eq_refl eq_refl).
  do 4 right. by exists [].
Defined.

(** ** The statements on concrete data *)

Lemma accepted_state_facts :
  license_info (self ScenarioMore.accepted_state)
  = Some (JObj ScenarioMore.saved_record)
  ∧ truthy (default JNull (ScenarioMore.saved_record !! "valid")) = true
  ∧ HAS_CRYPTO (Platform := TestHost.host) = true
  ∧ str_encode (Platform := TestHost.host) (hwid (self ScenarioMore.accepted_state))
    = Ok (list_byte_of_string "ab12")
  ∧ aes_key_size_ok
      (sha256_digest (Platform := TestHost.host) (list_byte_of_string "ab12"))
    = true
  ∧ str_encode (Platform := TestHost.host)
      (json_dumps (Platform := TestHost.host) (JObj ScenarioMore.saved_record))
    = Ok (list_byte_of_string
            (json_dumps (Platform := TestHost.host)
               (JObj ScenarioMore.saved_record)))
  ∧ json_loads (Platform := TestHost.host)
      (json_dumps (Platform := TestHost.host) (JObj ScenarioMore.saved_record))
    = Ok (JObj ScenarioMore.saved_record).
Proof. repeat split; by vm_compute. Qed.

Lemma save_cache_outcome_witness :
  license_info (self ScenarioMore.accepted_state)
  = Some (JObj ScenarioMore.saved_record)
  ∧ (save_cache (P := TestHost.host) ScenarioMore.accepted_state).1 = Ok true
  ∧ w_cache_file
      (world (save_cache (P := TestHost.host) ScenarioMore.accepted_state).2)
    ≠ NoFile.
Proof.
  destruct accepted_state_facts as (H1 & H2 & H3 & H4 & H5 & H6 & _).
  destruct (save_cache_outcome (P := TestHost.host) ScenarioMore.accepted_state
              ScenarioMore.saved_record _ _ H1 H2 H3 H4 H5 H6)
    as (ct & _ & Hres & _ & Hfile).
  split; [exact H1|]. split; [exact Hres|]. by rewrite Hfile.
Defined.

Lemma failed_write_destroys_cache_witness :
  w_cache_file (world ScenarioMore.full_disk_state) = Scenario.file_null_expiry
  ∧ (validate_offline (P := TestHost.host)
       (mk_state Scenario.client (world ScenarioMore.full_disk_state))).1
    = Ok true
  ∧ (save_cache (P := TestHost.host) ScenarioMore.full_disk_state).1 = Ok false
  ∧ (validate_offline (P := TestHost.host)
       (mk_state Scenario.client
          (world (save_cache (P := TestHost.host)
                    ScenarioMore.full_disk_state).2))).1
    = Ok false.
Proof.
  destruct accepted_state_facts as (H1 & H2 & H3 & H4 & H5 & H6 & _).
  destruct (failed_write_destroys_cache (P := TestHost.host)
              ScenarioMore.full_disk_state ScenarioMore.saved_record _ _ 10%nat
              H1 H2 H3 H4 H5 H6 eq_refl eq_refl ltac:(lia))
    as (Hres & _ & Hoff).
  split; [reflexivity|]. split; [by vm_compute|]. split; [exact Hres|].
  apply Hoff.
Defined.

Lemma saved_cache_file :
  w_cache_file
    (world (save_cache (P := TestHost.host) ScenarioMore.accepted_state).2)
  = ScenarioMore.file_after_acceptance.
Proof. by vm_compute. Qed.

Lemma saved_cache_decrypts_witness :
  w_can_write (world ScenarioMore.accepted_state) = true
  ∧ cache_decrypts_to (P := TestHost.host)
      (mk_state Scenario.client_without_key
         (Scenario.offline_world Scenario.t_three_days_later
            ScenarioMore.file_after_acceptance))
      (JObj ScenarioMore.saved_record).
Proof.
  destruct accepted_state_facts as (H1 & H2 & H3 & H4 & H5 & H6 & H7).
  split; [reflexivity|].
  exact (saved_cache_decrypts (P := TestHost.host) host_laws
           ScenarioMore.accepted_state ScenarioMore.saved_record _ _
           H1 H2 H3 H4 H5 H6 H7 eq_refl
           (mk_state Scenario.client_without_key
              (Scenario.offline_world Scenario.t_three_days_later
                 ScenarioMore.file_after_acceptance))
           eq_refl (eq_sym saved_cache_file)).
Defined.

Lemma online_state_facts :
  license_key (self ScenarioMore.online_state) = Some "HEX-0000-1111"%string
  ∧ str_encode (Platform := TestHost.host)
      (json_dumps (Platform := TestHost.host)
         (request_data (P := TestHost.host) (self ScenarioMore.online_state)))
    = Ok (list_byte_of_string
            (json_dumps (Platform := TestHost.host)
               (request_data (P := TestHost.host) Scenario.client)))
  ∧ w_server (world ScenarioMore.online_state)
    = Ok (list_byte_of_string ScenarioMore.acceptance_body)
  ∧ bytes_decode (Platform := TestHost.host)
      (list_byte_of_string ScenarioMore.acceptance_body)
    = Ok ScenarioMore.acceptance_body
  ∧ json_loads (Platform := TestHost.host) ScenarioMore.acceptance_body
    = Ok (JObj ScenarioMore.acceptance)
  ∧ truthy (default JNull (ScenarioMore.acceptance !! "valid")) = true.
Proof. repeat split; by vm_compute. Qed.


Lemma has_feature_after_acceptance_witness :
  ScenarioMore.acceptance !! "features" = None
  ∧ has_feature
      (self (validate (P := TestHost.host) ScenarioMore.online_state).2) "premium"
    = Ok false.
Proof.
  destruct online_state_facts as (H1 & H2 & H3 & H4 & H5 & H6).
  split; [by vm_compute|].
  apply (proj1 (proj2 (proj2 (proj2
           (has_feature_after_acceptance (P := TestHost.host)
              ScenarioMore.online_state _ _ _ _ _
              H1 ltac:(discriminate) H2 H3 H4 H5 H6))))).
  by vm_compute.
Defined.

Lemma offline_request_facts :
  license_key Scenario.client = Some "HEX-0000-1111"%string
  ∧ str_encode (Platform := TestHost.host)
      (json_dumps (Platform := TestHost.host)
         (request_data (P := TestHost.host) Scenario.client))
    = Ok (list_byte_of_string
            (json_dumps (Platform := TestHost.host)
               (request_data (P := TestHost.host) Scenario.client))).
Proof. split; by vm_compute. Qed.

Lemma validate_falls_back_offline_witness :
  no_server_verdict (P := TestHost.host)
    (Scenario.offline_world Scenario.t_three_days_later Scenario.file_null_expiry)
  ∧ (validate (P := TestHost.host)
       (mk_state Scenario.client
          (Scenario.offline_world Scenario.t_three_days_later
                                  Scenario.file_null_expiry))).1
    = (validate_offline (P := TestHost.host)
         (mk_state Scenario.client
            (after_request (P := TestHost.host) Scenario.client
               (list_byte_of_string
                  (json_dumps (Platform := TestHost.host)
                     (request_data (P := TestHost.host) Scenario.client)))
               (Scenario.offline_world Scenario.t_three_days_later
                                       Scenario.file_null_expiry)))).1.
Proof.
  destruct offline_request_facts as (H1 & H2).
  assert (no_server_verdict (P := TestHost.host)
            (Scenario.offline_world Scenario.t_three_days_later
                                    Scenario.file_null_expiry)) as Hno
    by (left; by exists URLError).
  split; [exact Hno|].
  by rewrite (proj1 (validate_falls_back_offline (P := TestHost.host)
                       (mk_state Scenario.client
                          (Scenario.offline_world Scenario.t_three_days_later
                                                  Scenario.file_null_expiry))
                       _ _ H1 ltac:(discriminate) H2 Hno)).
Defined.

Lemma online_record_facts :
  HAS_CRYPTO (Platform := TestHost.host) = true
  ∧ str_encode (Platform := TestHost.host) (hwid (self ScenarioMore.online_state))
    = Ok (list_byte_of_string "ab12")
  ∧ aes_key_size_ok
      (sha256_digest (Platform := TestHost.host) (list_byte_of_string "ab12"))
    = true
  ∧ str_encode (Platform := TestHost.host)
      (json_dumps (Platform := TestHost.host)
         (record_from_response (P := TestHost.host) ScenarioMore.acceptance
            (w_now (world ScenarioMore.online_state))))
    = Ok (list_byte_of_string
            (json_dumps (Platform := TestHost.host)
               (JObj ScenarioMore.saved_record)))
  ∧ json_loads (Platform := TestHost.host)
      (json_dumps (Platform := TestHost.host)
         (record_from_response (P := TestHost.host) ScenarioMore.acceptance
            (w_now (world ScenarioMore.online_state))))
    = Ok (record_from_response (P := TestHost.host) ScenarioMore.acceptance
            (w_now (world ScenarioMore.online_state)))
  ∧ fromisoformat (Platform := TestHost.host)
      (isoformat (Platform := TestHost.host)
         (naive (w_now (world ScenarioMore.online_state))))
    = Ok (naive (w_now (world ScenarioMore.online_state)))
  ∧ expiry_value (P := TestHost.host)
      (default JNull (ScenarioMore.acceptance !! "expiresAt")) None
  ∧ 0 ≤ w_now (world ScenarioMore.online_state)
        + timedelta_days OFFLINE_GRACE_DAYS ≤ DATETIME_MAX
  ∧ w_cache_file
      (world (validate (P := TestHost.host) ScenarioMore.online_state).2)
    = ScenarioMore.file_after_acceptance.
Proof.
  do 6 (split; [by vm_compute|]).
  split; [left; by vm_compute|].
  split; [vm_compute; split; discriminate|].
  by vm_compute.
Qed.

Lemma online_validation_enables_offline_witness :
  w_can_write (world ScenarioMore.online_state) = true
  ∧ (validate_offline (P := TestHost.host)
       (mk_state Scenario.client_without_key
          (Scenario.offline_world Scenario.t_three_days_later
             ScenarioMore.file_after_acceptance))).1
    = Ok true.
Proof.
  destruct online_state_facts as (H1 & H2 & H3 & H4 & H5 & H6).
  destruct online_record_facts as (F1 & F2 & F3 & F4 & F5 & F6 & F7 & F8 & F9).
  split; [reflexivity|].
  apply (proj2 (online_validation_enables_offline (P := TestHost.host) host_laws
                  ScenarioMore.online_state _ _ _ _ _ _ _ None
                  H1 ltac:(discriminate) H2 H3 H4 H5 H6
                  F1 F2 F3 F4 F5 F6 eq_refl F7 F8
                  (mk_state Scenario.client_without_key
                     (Scenario.offline_world Scenario.t_three_days_later
                        ScenarioMore.file_after_acceptance))
                  eq_refl (eq_sym F9))).
  split; [vm_compute; discriminate|by left].
Defined.

Lemma rejection_state_facts :
  str_encode (Platform := TestHost.host)
    (json_dumps (Platform := TestHost.host)
       (request_data (P := TestHost.host) Scenario.client))
  = Ok (list_byte_of_string
          (json_dumps (Platform := TestHost.host)
             (request_data (P := TestHost.host) Scenario.client)))
  ∧ bytes_decode (Platform := TestHost.host)
      (list_byte_of_string ScenarioOnline.rejection_body)
    = Ok ScenarioOnline.rejection_body
  ∧ json_loads (Platform := TestHost.host) ScenarioOnline.rejection_body
    = Ok (JObj ScenarioOnline.rejection)
  ∧ truthy (default JNull (ScenarioOnline.rejection !! "valid")) = false
  ∧ line_encodes (P := TestHost.host) "License validation failed: "
      (default (JStr "License validation failed")
               (ScenarioOnline.rejection !! "error")).
Proof.
  repeat split; try by vm_compute.
  intros s Hs. vm_compute in Hs. injection Hs as <-. eexists. by vm_compute.
Qed.

Lemma queries_after_rejection_witness :
  license_key Scenario.client = Some "HEX-0000-1111"%string
  ∧ has_feature
      (self (validate (P := TestHost.host)
               (mk_state Scenario.client
                  (Scenario.online_world Scenario.t_three_days_later
                     ScenarioOnline.rejection_body Scenario.file_null_expiry))).2)
      "premium"
    = Ok false.
Proof.
  destruct rejection_state_facts as (H2 & H4 & H5 & H6 & H7).
  split; [reflexivity|].
  apply (proj2 (proj2 (queries_after_rejection (P := TestHost.host)
                         (mk_state Scenario.client
                            (Scenario.online_world Scenario.t_three_days_later
                               ScenarioOnline.rejection_body
                               Scenario.file_null_expiry))
                         "HEX-0000-1111" _ _ _ _
                         eq_refl ltac:(discriminate) H2 eq_refl H4 H5 H6 H7))).
Defined.

Lemma printable_rejection_is_final_witness :
  license_key Scenario.client = Some "HEX-0000-1111"%string
  ∧ validate (P := TestHost.host)
      (mk_state Scenario.client
         (Scenario.online_world Scenario.t_three_days_later
            ScenarioOnline.rejection_body Scenario.file_null_expiry))
    = (Ok false,
       mk_state
         (set_license_info
            (Some (JObj (<["valid" := JBool false]>
                         {["error" := default (JStr "License validation failed")
                                              (ScenarioOnline.rejection !! "error")]})))
            Scenario.client)
         (log_event
            (IoRequest "https://api.hexrift.net/api/verify"
               (list_byte_of_string
                  (json_dumps (Platform := TestHost.host)
                     (request_data (P := TestHost.host) Scenario.client))))
            (Scenario.online_world Scenario.t_three_days_later
               ScenarioOnline.rejection_body Scenario.file_null_expiry))).
Proof.
  destruct rejection_state_facts as (H2 & H4 & H5 & H6 & H7).
  split; [reflexivity|].
  exact (printable_rejection_is_final (P := TestHost.host)
           (mk_state Scenario.client
              (Scenario.online_world Scenario.t_three_days_later
                 ScenarioOnline.rejection_body Scenario.file_null_expiry))
           "HEX-0000-1111" _ _ _ _
           eq_refl ltac:(discriminate) H2 eq_refl H4 H5 H6 H7).
Defined.

Lemma surrogate_rejection_facts :
  str_encode (Platform := SurrogateHost.host)
    (json_dumps (Platform := SurrogateHost.host)
       (request_data (P := SurrogateHost.host) Scenario.client))
  = Ok (list_byte_of_string
          (json_dumps (Platform := SurrogateHost.host)
             (request_data (P := SurrogateHost.host) Scenario.client)))
  ∧ bytes_decode (Platform := SurrogateHost.host)
      (list_byte_of_string SurrogateHost.rejection_body)
    = Ok SurrogateHost.rejection_body
  ∧ json_loads (Platform := SurrogateHost.host) SurrogateHost.rejection_body
    = Ok (JObj SurrogateHost.rejection)
  ∧ truthy (default JNull (SurrogateHost.rejection !! "valid")) = false
  ∧ SurrogateHost.rejection !! "error" = Some (JStr SurrogateHost.surrogate)
  ∧ str_encode (Platform := SurrogateHost.host)
      ("License validation failed: " ++ SurrogateHost.surrogate)%string
    = Raise UnicodeEncodeError.
Proof. repeat split; by vm_compute. Qed.

Lemma unprintable_rejection_falls_back_witness :
  license_key Scenario.client = Some "HEX-0000-1111"%string
  ∧ validate (P := SurrogateHost.host) SurrogateHost.rejection_state
    = validate_offline (P := SurrogateHost.host)
        (mk_state
           (set_license_info
              (Some (JObj (<["valid" := JBool false]>
                           {["error" := JStr SurrogateHost.surrogate]})))
              Scenario.client)
           (after_request (P := SurrogateHost.host) Scenario.client
              (list_byte_of_string
                 (json_dumps (Platform := SurrogateHost.host)
                    (request_data (P := SurrogateHost.host) Scenario.client)))
              (world SurrogateHost.rejection_state))).
Proof.
  destruct surrogate_rejection_facts as (H2 & H4 & H5 & H6 & H7 & H8).
  split; [reflexivity|].
  exact (proj1 (unprintable_rejection_falls_back (P := SurrogateHost.host)
                  SurrogateHost.rejection_state
                  "HEX-0000-1111" _ _ _ _ _ _
                  eq_refl ltac:(discriminate) H2 eq_refl H4 H5 H6 H7 H8)).
Defined.

Lemma null_expiry_checks :
  offline_checks (P := TestHost.host) Scenario.t_three_days_later
    Scenario.record_null_expiry.
Proof.
  unfold offline_checks. eexists _, _, _, _.
  split; [by vm_compute|]. split; [by vm_compute|].
  split; [by vm_compute|]. split; [by vm_compute|].
  split; by vm_compute.
Qed.

Lemma offline_acceptance_ignores_valid_witness :
  Scenario.record_null_expiry !! "valid" = None
  ∧ (validate_offline (P := TestHost.host)
       (mk_state Scenario.client
          (Scenario.offline_world Scenario.t_three_days_later
                                  Scenario.file_null_expiry))).1 = Ok true
  ∧ is_valid
      (self (validate_offline (P := TestHost.host)
               (mk_state Scenario.client
                  (Scenario.offline_world Scenario.t_three_days_later
                                          Scenario.file_null_expiry))).2)
    = Ok (JBool false).
Proof.
  split; [by vm_compute|].
  destruct (offline_acceptance_ignores_valid (P := TestHost.host)
              (mk_state Scenario.client
                 (Scenario.offline_world Scenario.t_three_days_later
                                         Scenario.file_null_expiry))
              Scenario.record_null_expiry
              (null_expiry_file_decrypts _) null_expiry_checks)
    as (Hres & _ & Hvalid).
  split; [exact Hres|]. rewrite Hvalid. by vm_compute.
Defined.

Lemma validate_offline_depends_on_hwid_only_witness :
  hwid Scenario.client = hwid Scenario.client_without_key
  ∧ (validate_offline (P := TestHost.host)
       (mk_state Scenario.client
          (Scenario.offline_world Scenario.t_three_days_later
                                  Scenario.file_null_expiry))).1
    = (validate_offline (P := TestHost.host)
         (mk_state Scenario.client_without_key
            (Scenario.offline_world Scenario.t_three_days_later
                                    Scenario.file_null_expiry))).1.
Proof.
  split; [reflexivity|].
  exact (validate_offline_depends_on_hwid_only (P := TestHost.host)
           Scenario.client Scenario.client_without_key _ eq_refl).
Defined.

Lemma validate_offline_needs_one_colon_witness :
  count_char ":" "0102030405060708090a0b0c0d0e0f10" ≠ 1%nat
  ∧ (validate_offline (P := TestHost.host)
       (mk_state Scenario.client
          (Scenario.offline_world Scenario.t_three_days_later
             (FileText "0102030405060708090a0b0c0d0e0f10")))).1
    = Ok false.
Proof.
  split; [by vm_compute|].
  by rewrite (validate_offline_needs_one_colon (P := TestHost.host)
                (mk_state Scenario.client
                   (Scenario.offline_world Scenario.t_three_days_later
                      (FileText "0102030405060708090a0b0c0d0e0f10")))
                "0102030405060708090a0b0c0d0e0f10" eq_refl
                ltac:(by vm_compute)).
Defined.

Lemma file_aware_decrypts (now : Z) :
  @cache_decrypts_to TestHost.host
    (mk_state Scenario.client
              (Scenario.offline_world now ScenarioMore.file_aware))
    (JObj ScenarioMore.record_aware).
Proof.
  unfold cache_decrypts_to. simpl.
  eexists _, _, _, _, _, _, _.
  split; [reflexivity|].
  do 3 (split; [vm_compute; reflexivity|]).
  split; [reflexivity|].
  do 2 (split; [vm_compute; reflexivity|]).
  vm_compute. reflexivity.
Qed.

Lemma file_false_expiry_decrypts (now : Z) :
  @cache_decrypts_to TestHost.host
    (mk_state Scenario.client
              (Scenario.offline_world now ScenarioMore.file_false_expiry))
    (JObj ScenarioMore.record_false_expiry).
Proof.
  unfold cache_decrypts_to. simpl.
  eexists _, _, _, _, _, _, _.
  split; [reflexivity|].
  do 3 (split; [vm_compute; reflexivity|]).
  split; [reflexivity|].
  do 2 (split; [vm_compute; reflexivity|]).
  vm_compute. reflexivity.
Qed.

Lemma validate_offline_rejects_aware_timestamps_witness :
  fromisoformat (Platform := TestHost.host) "2024-01-08T12:30:05+02:00"
  = Ok (mk_datetime Scenario.t_validated (Some (2 * MICROS_PER_HOUR)))
  ∧ (validate_offline (P := TestHost.host)
       (mk_state Scenario.client
          (Scenario.offline_world Scenario.t_three_days_later
                                  ScenarioMore.file_aware))).1 = Ok false.
Proof.
  split; [by vm_compute|].
  apply (validate_offline_rejects_aware_timestamps (P := TestHost.host) _
           ScenarioMore.record_aware "2024-01-08T12:30:05+02:00"
           Scenario.t_validated (2 * MICROS_PER_HOUR)
           (file_aware_decrypts _) ltac:(by vm_compute)).
  left. by vm_compute.
Defined.

Lemma false_expiry_means_no_expiry_witness :
  ScenarioMore.record_false_expiry !! "expiresAt" = Some (JBool false)
  ∧ (validate_offline (P := TestHost.host)
       (mk_state Scenario.client
          (Scenario.offline_world Scenario.t_three_days_later
                                  ScenarioMore.file_false_expiry))).1 = Ok true.
Proof.
  split; [by vm_compute|].
  apply (proj2 (false_expiry_means_no_expiry (P := TestHost.host) _
                  ScenarioMore.record_false_expiry "2024-01-08T12:30:05"
                  Scenario.t_validated (JBool false)
                  (file_false_expiry_decrypts _)
                  ltac:(by vm_compute) ltac:(by vm_compute)
                  ltac:(vm_compute; split; discriminate)
                  ltac:(by vm_compute) eq_refl)).
  vm_compute. discriminate.
Defined.

Lemma validate_writes_cache_only_on_acceptance_witness :
  w_cache_file (world (validate (P := TestHost.host) ScenarioMore.online_state).2)
  ≠ w_cache_file (world ScenarioMore.online_state)
  ∧ (validate (P := TestHost.host) ScenarioMore.online_state).1 = Ok true.
Proof.
  assert (w_cache_file
            (world (validate (P := TestHost.host) ScenarioMore.online_state).2)
          ≠ w_cache_file (world ScenarioMore.online_state)) as Hchanged
    by (vm_compute; discriminate).
  split; [exact Hchanged|].
  destruct (validate_writes_cache_only_on_acceptance (P := TestHost.host)
              ScenarioMore.online_state Hchanged)
    as (key & body & raw & text & resp & _ & _ & _ & _ & _ & _ & _ & Hres).
  exact Hres.
Defined.

Lemma decrypt_aes_errors_witness :
  aes_key_size_ok Sample.key = true
  ∧ _decrypt_aes (P := TestHost.host) [] Sample.key Sample.iv = Raise IndexError
  ∧ _decrypt_aes (P := TestHost.host) [x00; x01; x02] Sample.key Sample.iv
    = Raise ValueError.
Proof.
  split; [reflexivity|]. split.
  - exact (proj2 (decrypt_aes_errors (P := TestHost.host) [] Sample.key Sample.iv)
             eq_refl eq_refl eq_refl).
  - apply (proj1 (decrypt_aes_errors (P := TestHost.host)
                    [x00; x01; x02] Sample.key Sample.iv)).
    right. right. by vm_compute.
Defined.

Lemma encrypt_aes_length_witness :
  aes_key_size_ok Sample.key = true
  ∧ ∃ ciphertext,
      _encrypt_aes (P := TestHost.host) Sample.payload Sample.key Sample.iv
      = Ok ciphertext
      ∧ Z.of_nat (length ciphertext)
        = 16 * (Z.of_nat (length (list_byte_of_string Sample.payload)) / 16 + 1).
Proof.
  split; [reflexivity|].
  exact (encrypt_aes_length (P := TestHost.host) host_laws
           Sample.payload Sample.key Sample.iv
           (list_byte_of_string Sample.payload)
           eq_refl eq_refl ltac:(by vm_compute)).
Defined.
